(** * FlightsSQL: the data-access gateway (data.py) and its console front end (main.py)

    A shallow embedding of the two Python modules.  Python values are a small
    tagged union, a record (the dict made by [row._asdict()]) is a finite map
    from column name to value, and every function that prints, reads, talks to
    the store or raises is a computation in a state-and-exception monad over
    the [world] the program runs in.

    Modelling scope.  A Python [str] is a string over the code points below
    256; [float] and [bytes] values are outside the value type.  The store is
    a list of named tables compared with SQL equality on values of the same
    storage class (column affinity conversions are not modelled). *)

From Stdlib Require Import ZArith Ascii String List Bool Lia.
From stdpp Require Import base option list strings gmap pretty.

Local Open Scope string_scope.
Local Open Scope list_scope.
Local Open Scope Z_scope.

(** ** Python values and exceptions *)

Inductive value : Type :=
| VNone
| VInt (z : Z)
| VStr (s : string).

#[global] Instance value_eq_dec : EqDecision value.
Proof. solve_decision. Defined.

Inductive exn : Type :=
| KeyError (key : string)
| ValueError (literal : string)
| TypeError
| EOFError
| OperationalError (msg : string)
| StatementError (param : string).

(** [ValueError] and the members of [sqlalchemy.exc.SQLAlchemyError] that the
    model can raise; [KeyError] and [EOFError] are neither. *)
Definition is_ValueError (e : exn) : bool :=
  match e with ValueError _ => true | _ => false end.

Definition is_SQLAlchemyError (e : exn) : bool :=
  match e with OperationalError _ | StatementError _ => true | _ => false end.

Inductive res (A : Type) : Type :=
| Ok (a : A)
| Raise (e : exn).
Arguments Ok {A} a.
Arguments Raise {A} e.

#[global] Instance res_ret : MRet res := fun A a => Ok a.
#[global] Instance res_fmap : FMap res := fun A B f r =>
  match r with
  | Ok a => Ok (f a)
  | Raise e => Raise e
  end.
#[global] Instance res_bind : MBind res := fun A B k r =>
  match r with
  | Ok a => k a
  | Raise e => Raise e
  end.

(** ** Python built-ins used by the two modules *)

Module Py.

(** [bool(v)]: [None], [0] and the empty string are false. *)
Definition truthy (v : value) : bool :=
  match v with
  | VNone => false
  | VInt z => negb (z =? 0)
  | VStr s => negb (String.eqb s "")
  end.

(** [str(v)], as an f-string field renders it. *)
Definition str (v : value) : string :=
  match v with
  | VNone => "None"
  | VInt z => pretty z
  | VStr s => s
  end.

Definition code (c : ascii) : N := N_of_ascii c.

Definition between (lo hi : N) (c : ascii) : bool :=
  (N.leb lo (code c) && N.leb (code c) hi)%bool.

(** [c.isalpha()] on code points below 256: the ASCII letters, the ordinal
    indicators, the micro sign and the accented Latin letters. *)
Definition isalpha_char (c : ascii) : bool :=
  (between 65 90 c || between 97 122 c
   || N.eqb (code c) 170 || N.eqb (code c) 181 || N.eqb (code c) 186
   || between 192 214 c || between 216 246 c || between 248 255 c)%bool.

(** [s.isalpha()]: every character alphabetic and at least one character. *)
Definition isalpha (s : string) : bool :=
  match list_ascii_of_string s with
  | [] => false
  | cs => forallb isalpha_char cs
  end.

Definition len (s : string) : nat := String.length s.

(** The white space [int()] strips: tab to carriage return, the space, and
    the two spaces above 127 (next line, no-break space). *)
Definition isspace_char (c : ascii) : bool :=
  (between 9 13 c || N.eqb (code c) 32
   || N.eqb (code c) 133 || N.eqb (code c) 160)%bool.

Definition isdigit_char (c : ascii) : bool := between 48 57 c.

Fixpoint lstrip (cs : list ascii) : list ascii :=
  match cs with
  | c :: cs' => if isspace_char c then lstrip cs' else cs
  | [] => []
  end.

Definition strip (cs : list ascii) : list ascii :=
  rev (lstrip (rev (lstrip cs))).

(** Decimal digits with single underscores between them. *)
Fixpoint digits (cs : list ascii) (acc : Z) (after_digit : bool) : option Z :=
  match cs with
  | [] => if after_digit then Some acc else None
  | c :: cs' =>
      if isdigit_char c
      then digits cs' (10 * acc + (Z.of_N (code c) - 48)) true
      else if Ascii.eqb c "_"
           then (if after_digit then digits cs' acc false else None)
           else None
  end.

Definition int_of_str (s : string) : option Z :=
  match strip (list_ascii_of_string s) with
  | c :: cs =>
      if Ascii.eqb c "-" then Z.opp <$> digits cs 0 false
      else if Ascii.eqb c "+" then digits cs 0 false
      else digits (c :: cs) 0 false
  | [] => None
  end.

(** [int(v)]. *)
Definition int (v : value) : res Z :=
  match v with
  | VInt z => Ok z
  | VStr s => match int_of_str s with
              | Some z => Ok z
              | None => Raise (ValueError s)
              end
  | VNone => Raise TypeError
  end.

End Py.

(** ** The backing store

    What [conn.execute(text(query), params)] does, for the statement shapes
    the catalog uses: one FROM table, an optional inner JOIN, equalities
    joined by AND, and a projection of [t.*], [t.c] and [t.c AS alias].
    Identifiers are matched without regard to ASCII case and an unaliased
    result column carries the name the schema declares, as SQLite does.
    Rows come out in nested-loop order, FROM table outermost. *)

Module Sql.

Inductive operand : Type :=
| OCol (t c : string)
| OParam (p : string).

Inductive cond : Type :=
| CEq (a b : operand)
| CAnd (c1 c2 : cond).

Inductive proj : Type :=
| PStar (t : string)
| PCol (t c : string)
| PAs (t c : string) (alias : string).

Record select : Type := MkSelect {
  sel_proj : list proj;
  sel_from : string;
  sel_join : option (string * cond);
  sel_where : cond
}.

Inductive stmt : Type :=
| Select (s : select)
| Insert (t : string) (vals : list operand)
| Delete (t : string) (w : cond).

Record table : Type := MkTable {
  tbl_cols : list string;
  tbl_rows : list (list value)
}.

Definition store : Type := list (string * table).

(** A result row as the cursor describes it: (column name, value) in
    projection order, duplicates included. *)
Definition result_row : Type := list (string * value).

(** A table in scope with the row the loop is at. *)
Definition binding : Type := string * (list string * list value).

Definition upper_char (c : ascii) : ascii :=
  if Py.between 97 122 c then ascii_of_N (Py.code c - 32) else c.

Fixpoint upper (s : string) : string :=
  match s with
  | EmptyString => EmptyString
  | String c s' => String (upper_char c) (upper s')
  end.

Definition ident_eqb (a b : string) : bool := String.eqb (upper a) (upper b).

Fixpoint find_table (name : string) (st : store) : option table :=
  match st with
  | [] => None
  | (n, t) :: st' => if ident_eqb name n then Some t else find_table name st'
  end.

(** The declared name and the value of column [c]; a row shorter than its
    schema reads NULL. *)
Fixpoint col_lookup (c : string) (cols : list string) (r : list value)
  : option (string * value) :=
  match cols with
  | [] => None
  | k :: cols' =>
      if ident_eqb c k then Some (k, hd VNone r) else col_lookup c cols' (tl r)
  end.

Fixpoint star_row (cols : list string) (r : list value) : result_row :=
  match cols with
  | [] => []
  | k :: cols' => (k, hd VNone r) :: star_row cols' (tl r)
  end.

Fixpoint find_binding (t : string) (env : list binding) : option (list string * list value) :=
  match env with
  | [] => None
  | (t', b) :: env' => if ident_eqb t t' then Some b else find_binding t env'
  end.

Definition resolve (env : list binding) (t c : string) : option (string * value) :=
  '(cols, r) ← find_binding t env; col_lookup c cols r.

Definition no_such_table (t : string) : exn :=
  OperationalError ("no such table: " +:+ t).
Definition no_such_column (t c : string) : exn :=
  OperationalError ("no such column: " +:+ t +:+ "." +:+ c).

(** SQL [=]: NULL equals nothing, not even NULL. *)
Definition sql_eq (a b : value) : bool :=
  match a, b with
  | VNone, _ | _, VNone => false
  | _, _ => bool_decide (a = b)
  end.

Definition eval_operand (params : gmap string value) (env : list binding)
    (o : operand) : res value :=
  match o with
  | OCol t c => match resolve env t c with
                | Some (_, v) => Ok v
                | None => Raise (no_such_column t c)
                end
  | OParam p => match params !! p with
                | Some v => Ok v
                | None => Raise (StatementError p)
                end
  end.

Fixpoint eval_cond (params : gmap string value) (env : list binding)
    (c : cond) : res bool :=
  match c with
  | CEq a b =>
      x ← eval_operand params env a;
      y ← eval_operand params env b;
      Ok (sql_eq x y)
  | CAnd c1 c2 =>
      x ← eval_cond params env c1;
      y ← eval_cond params env c2;
      Ok (x && y)
  end.

Definition eval_proj (env : list binding) (p : proj) : res result_row :=
  match p with
  | PStar t => match find_binding t env with
               | Some (cols, r) => Ok (star_row cols r)
               | None => Raise (no_such_table t)
               end
  | PCol t c => match resolve env t c with
                | Some kv => Ok [kv]
                | None => Raise (no_such_column t c)
                end
  | PAs t c alias => match resolve env t c with
                     | Some (_, v) => Ok [(alias, v)]
                     | None => Raise (no_such_column t c)
                     end
  end.

Fixpoint project (env : list binding) (ps : list proj) : res result_row :=
  match ps with
  | [] => Ok []
  | p :: ps' =>
      cols ← eval_proj env p;
      rest ← project env ps';
      Ok (cols ++ rest)
  end.

Definition operand_params (o : operand) : list string :=
  match o with
  | OParam p => [p]
  | OCol _ _ => []
  end.

Fixpoint cond_params (c : cond) : list string :=
  match c with
  | CEq a b => operand_params a ++ operand_params b
  | CAnd c1 c2 => cond_params c1 ++ cond_params c2
  end.

Definition stmt_params (q : stmt) : list string :=
  match q with
  | Select s =>
      match sel_join s with
      | Some (_, on) => cond_params on
      | None => []
      end ++ cond_params (sel_where s)
  | Insert _ vals => vals ≫= operand_params
  | Delete _ w => cond_params w
  end.

(** [text()] binds every named placeholder before the store sees the
    statement; a placeholder without a value is a [StatementError]. *)
Fixpoint bind_params (names : list string) (params : gmap string value) : res unit :=
  match names with
  | [] => Ok tt
  | p :: names' =>
      match params !! p with
      | Some _ => bind_params names' params
      | None => Raise (StatementError p)
      end
  end.

Definition source (t : string) (st : store) : res table :=
  match find_table t st with
  | Some T => Ok T
  | None => Raise (no_such_table t)
  end.

(** One candidate row: the ON and WHERE conditions and the projection. *)
Definition select_row (s : select) (params : gmap string value)
    (env : list binding) : res (option result_row) :=
  on ← match sel_join s with
       | Some (_, c) => eval_cond params env c
       | None => Ok true
       end;
  wh ← eval_cond params env (sel_where s);
  cols ← project env (sel_proj s);
  Ok (if on && wh then Some cols else None).

Fixpoint select_rows (s : select) (params : gmap string value)
    (envs : list (list binding)) : res (list result_row) :=
  match envs with
  | [] => Ok []
  | env :: envs' =>
      r ← select_row s params env;
      rs ← select_rows s params envs';
      Ok (match r with Some cols => cols :: rs | None => rs end)
  end.

Definition candidates (s : select) (F : table) (J : option (string * table))
  : list (list binding) :=
  match J with
  | None => (λ f, [(sel_from s, (tbl_cols F, f))]) <$> tbl_rows F
  | Some (t, A) =>
      f ← tbl_rows F; a ← tbl_rows A;
      [[(sel_from s, (tbl_cols F, f)); (t, (tbl_cols A, a))]]
  end.

(** The statement is compiled against the schema first (the all-NULL
    candidate), so a missing table or column is an error even when no row
    would be read. *)
Definition exec_select (s : select) (params : gmap string value)
    (st : store) : res (list result_row) :=
  F ← source (sel_from s) st;
  J ← match sel_join s with
      | Some (t, _) => A ← source t st; Ok (Some (t, A))
      | None => Ok None
      end;
  _ ← select_row s params
        ((sel_from s, (tbl_cols F, [])) ::
         match J with Some (t, A) => [(t, (tbl_cols A, []))] | None => [] end);
  select_rows s params (candidates s F J).

Fixpoint set_table (name : string) (T : table) (st : store) : store :=
  match st with
  | [] => []
  | (n, t) :: st' =>
      if ident_eqb name n then (n, T) :: st' else (n, t) :: set_table name T st'
  end.

Fixpoint eval_operands (params : gmap string value) (os : list operand)
  : res (list value) :=
  match os with
  | [] => Ok []
  | o :: os' =>
      v ← eval_operand params [] o;
      vs ← eval_operands params os';
      Ok (v :: vs)
  end.

Fixpoint delete_rows (t : string) (cols : list string) (params : gmap string value)
    (w : cond) (rows : list (list value)) : res (list (list value)) :=
  match rows with
  | [] => Ok []
  | r :: rows' =>
      b ← eval_cond params [(t, (cols, r))] w;
      rest ← delete_rows t cols params w rows';
      Ok (if b : bool then rest else r :: rest)
  end.

(** One statement against the store: the rows it returns and the store it
    leaves. *)
Definition run (q : stmt) (params : gmap string value) (st : store)
  : res (list result_row) * store :=
  match bind_params (stmt_params q) params with
  | Raise e => (Raise e, st)
  | Ok _ =>
      match q with
      | Select s => (exec_select s params st, st)
      | Insert t vals =>
          match (T ← source t st; vs ← eval_operands params vals; Ok (T, vs)) with
          | Ok (T, vs) =>
              (Ok [], set_table t (MkTable (tbl_cols T) (tbl_rows T ++ [vs])) st)
          | Raise e => (Raise e, st)
          end
      | Delete t w =>
          match source t st with
          | Ok T =>
              match delete_rows t (tbl_cols T) params w (tbl_rows T) with
              | Ok rows => (Ok [], set_table t (MkTable (tbl_cols T) rows) st)
              | Raise e => (Raise e, st)
              end
          | Raise e => (Raise e, st)
          end
      end
  end.

End Sql.

(** ** The world the program runs in *)

Inductive event : Type :=
| Connect
| Close
| Execute (q : Sql.stmt) (params : gmap string value).

Inductive out : Type :=
| Print (line : string)
| PrintError (prefix : string) (e : exn)
| Prompt (text : string).

(** [w_db] is the store behind the engine's URI ([None]: it cannot be
    opened), [w_open] counts the connections checked out and not yet closed,
    [w_log] is what the engine was asked to do, oldest first. *)
Record world : Type := World {
  w_db : option Sql.store;
  w_open : nat;
  w_log : list event;
  w_stdin : list string;
  w_stdout : list out
}.

Definition M (A : Type) : Type := world -> res A * world.

#[global] Instance M_ret : MRet M := fun A a w => (Ok a, w).
#[global] Instance M_bind : MBind M := fun A B k m w =>
  match m w with
  | (Ok a, w') => k a w'
  | (Raise e, w') => (Raise e, w')
  end.

#[global] Instance M_fmap : FMap M := fun A B f m => a ← m; mret (f a).

Definition lift {A} (r : res A) : M A := fun w => (r, w).

Definition log_event (ev : event) (w : world) : world :=
  World (w_db w) (w_open w) (w_log w ++ [ev]) (w_stdin w) (w_stdout w).

Definition write (o : out) (w : world) : world :=
  World (w_db w) (w_open w) (w_log w) (w_stdin w) (w_stdout w ++ [o]).

(** [print(line)] *)
Definition print (line : string) : M unit := fun w => (Ok tt, write (Print line) w).

(** [print(prefix, error)] *)
Definition print_error (prefix : string) (e : exn) : M unit :=
  fun w => (Ok tt, write (PrintError prefix e) w).

(** [input(prompt)]: end of input is [EOFError]. *)
Definition input (prompt : string) : M string := fun w =>
  let w' := write (Prompt prompt) w in
  match w_stdin w' with
  | [] => (Raise EOFError, w')
  | line :: rest =>
      (Ok line, World (w_db w') (w_open w') (w_log w') rest (w_stdout w'))
  end.

(** [try: body except (classes) as error: handler] *)
Definition try_except {A} (body : M A) (catches : exn -> bool)
    (handler : exn -> M A) : M A := fun w =>
  match body w with
  | (Raise e, w') => if catches e then handler e w' else (Raise e, w')
  | ok => ok
  end.

(** ** data.py *)

Import Sql.

(** SELECT flights.*, airlines.airline, flights.ID as FLIGHT_ID,
    flights.DEPARTURE_DELAY as DELAY FROM flights
    JOIN airlines ON flights.airline = airlines.id WHERE flights.ID = :id *)
Definition QUERY_FLIGHT_BY_ID : stmt := Select {|
  sel_proj := [PStar "flights"; PCol "airlines" "airline";
               PAs "flights" "ID" "FLIGHT_ID";
               PAs "flights" "DEPARTURE_DELAY" "DELAY"];
  sel_from := "flights";
  sel_join := Some ("airlines", CEq (OCol "flights" "airline") (OCol "airlines" "id"));
  sel_where := CEq (OCol "flights" "ID") (OParam "id")
|}.

(** SELECT flights.*, flights.ID as FLIGHT_ID, flights.ORIGIN_AIRPORT,
    flights.DESTINATION_AIRPORT, flights.DEPARTURE_DELAY as DELAY
    FROM flights WHERE flights.DAY = :day
    AND flights.MONTH = :month AND flights.YEAR = :year *)
Definition QUERY_FLIGHT_BY_DATE : stmt := Select {|
  sel_proj := [PStar "flights"; PAs "flights" "ID" "FLIGHT_ID";
               PCol "flights" "ORIGIN_AIRPORT"; PCol "flights" "DESTINATION_AIRPORT";
               PAs "flights" "DEPARTURE_DELAY" "DELAY"];
  sel_from := "flights";
  sel_join := None;
  sel_where := CAnd (CAnd (CEq (OCol "flights" "DAY") (OParam "day"))
                          (CEq (OCol "flights" "MONTH") (OParam "month")))
                    (CEq (OCol "flights" "YEAR") (OParam "year"))
|}.

(** SELECT flights.*, flights.ID as FLIGHT_ID, flights.ORIGIN_AIRPORT,
    flights.DESTINATION_AIRPORT, airlines.AIRLINE,
    flights.DEPARTURE_DELAY as DELAY
    FROM flights JOIN airlines ON flights.AIRLINE = airlines.ID
    WHERE flights.ORIGIN_AIRPORT = :origin_airport *)
Definition QUERY_FLIGHT_BY_AIRPORT : stmt := Select {|
  sel_proj := [PStar "flights"; PAs "flights" "ID" "FLIGHT_ID";
               PCol "flights" "ORIGIN_AIRPORT"; PCol "flights" "DESTINATION_AIRPORT";
               PCol "airlines" "AIRLINE";
               PAs "flights" "DEPARTURE_DELAY" "DELAY"];
  sel_from := "flights";
  sel_join := Some ("airlines", CEq (OCol "flights" "AIRLINE") (OCol "airlines" "ID"));
  sel_where := CEq (OCol "flights" "ORIGIN_AIRPORT") (OParam "origin_airport")
|}.

(** SELECT airlines.*, airlines.ID as AIRLINE_ID, flights.ORIGIN_AIRPORT,
    flights.DESTINATION_AIRPORT, airlines.AIRLINE,
    flights.DEPARTURE_DELAY as DELAY
    FROM flights JOIN airlines ON airlines.ID = flights.AIRLINE
    WHERE airlines.AIRLINE = :airline *)
Definition QUERY_FLIGHT_BY_AIRLINE : stmt := Select {|
  sel_proj := [PStar "airlines"; PAs "airlines" "ID" "AIRLINE_ID";
               PCol "flights" "ORIGIN_AIRPORT"; PCol "flights" "DESTINATION_AIRPORT";
               PCol "airlines" "AIRLINE";
               PAs "flights" "DEPARTURE_DELAY" "DELAY"];
  sel_from := "flights";
  sel_join := Some ("airlines", CEq (OCol "airlines" "ID") (OCol "flights" "AIRLINE"));
  sel_where := CEq (OCol "airlines" "AIRLINE") (OParam "airline")
|}.

Module FlightData.

(** [row._asdict()]: a dict keyed by column name; of two columns with one
    name the later one stays. *)
Definition _asdict (row : result_row) : gmap string value :=
  foldl (λ d kv, <[kv.1 := kv.2]> d) ∅ row.

(** [self._engine.connect()]: a connection is checked out of the engine,
    or the store cannot be opened and nothing is checked out. *)
Definition connect : M unit := fun w =>
  match w_db w with
  | Some _ =>
      (Ok tt, log_event Connect
                (World (w_db w) (S (w_open w)) (w_log w) (w_stdin w) (w_stdout w)))
  | None => (Raise (OperationalError "unable to open database file"), w)
  end.

(** The connection's [__exit__]: it closes and lets an exception pass. *)
Definition close (w : world) : world :=
  log_event Close
    (World (w_db w) (Nat.pred (w_open w)) (w_log w) (w_stdin w) (w_stdout w)).

(** [with self._engine.connect() as conn: body] *)
Definition with_connect {A} (body : M A) : M A :=
  _ ← connect;
  ((fun w => let (r, w') := body w in (r, close w')) : M A).

(** [conn.execute(text(query), params)] *)
Definition conn_execute (query : stmt) (params : gmap string value)
  : M (list result_row) := fun w =>
  let w1 := log_event (Execute query params) w in
  match w_db w1 with
  | Some st =>
      let (r, st') := Sql.run query params st in
      (r, World (Some st') (w_open w1) (w_log w1) (w_stdin w1) (w_stdout w1))
  | None => (Raise (OperationalError "unable to open database file"), w1)
  end.

Definition _execute_query (query : stmt) (params : gmap string value)
  : M (list (gmap string value)) :=
  let records := [] in
  with_connect (
    result ← conn_execute query params;
    mret (foldl (λ records row, records ++ [_asdict row]) records result)).

Definition get_delayed_flights_by_airline (origin_airport : value)
  : M (list (gmap string value)) :=
  let params : gmap string value := {[ "airline" := origin_airport ]} in
  _execute_query QUERY_FLIGHT_BY_AIRLINE params.

Definition get_delayed_flights_by_airport (origin_airport : value)
  : M (list (gmap string value)) :=
  let params : gmap string value := {[ "origin_airport" := origin_airport ]} in
  _execute_query QUERY_FLIGHT_BY_AIRPORT params.

Definition get_flight_by_id (flight_id : value) : M (list (gmap string value)) :=
  let params : gmap string value := {[ "id" := flight_id ]} in
  _execute_query QUERY_FLIGHT_BY_ID params.

Definition get_flights_by_date (day month year : value)
  : M (list (gmap string value)) :=
  let params : gmap string value :=
    {[ "day" := day; "month" := month; "year" := year ]} in
  _execute_query QUERY_FLIGHT_BY_DATE params.

End FlightData.

(** ** main.py *)

Definition IATA_LENGTH : nat := 3.

(** [result[key]] on a dict: a missing key is [KeyError]. *)
Definition getitem (result : gmap string value) (key : string) : M value :=
  lift (match result !! key with
        | Some v => Ok v
        | None => Raise (KeyError key)
        end).

(** The body of the [try] in [print_results]: delay, origin, dest, airline. *)
Definition read_columns (result : gmap string value)
  : M (Z * value * value * value) :=
  cond ← getitem result "DELAY";
  delay ← (if Py.truthy cond
           then v ← getitem result "DELAY"; lift (Py.int v)
           else mret 0);
  origin ← getitem result "ORIGIN_AIRPORT";
  dest ← getitem result "DESTINATION_AIRPORT";
  airline ← getitem result "AIRLINE";
  mret (delay, origin, dest, airline).

Definition flight_line (id origin dest airline : value) : string :=
  Py.str id +:+ ". " +:+ Py.str origin +:+ " -> " +:+ Py.str dest
    +:+ " by " +:+ Py.str airline.

Definition delay_suffix (delay : Z) : string :=
  ", Delay: " +:+ Py.str (VInt delay) +:+ " Minutes".

(** The [for] loop of [print_results]; the handler's [return] ends it. *)
Fixpoint print_rows (results : list (gmap string value)) : M unit :=
  match results with
  | [] => mret tt
  | result :: rest =>
      cols ← try_except (Some <$> read_columns result)
                (λ e, is_ValueError e || is_SQLAlchemyError e)
                (λ error, _ ← print_error "Error showing results: " error; mret None);
      match cols with
      | None => mret tt
      | Some (delay, origin, dest, airline) =>
          _ ← (if Py.truthy (VInt delay) && (0 <? delay)
               then id ← getitem result "ID";
                    print (flight_line id origin dest airline +:+ delay_suffix delay)
               else id ← getitem result "ID";
                    print (flight_line id origin dest airline));
          print_rows rest
      end
  end.

Definition print_results (results : list (gmap string value)) : M unit :=
  _ ← print ("Got " +:+ pretty (length results) +:+ " results.");
  print_rows results.

Definition delayed_flights_by_airline : M unit :=
  airline_input ← input "Enter airline name: ";
  results ← FlightData.get_delayed_flights_by_airline (VStr airline_input);
  print_results results.

Definition valid_iata (airport_input : string) : bool :=
  Py.isalpha airport_input && Nat.eqb (Py.len airport_input) IATA_LENGTH.

(** The [while not valid] loop of [delayed_flights_by_airport].  Every round
    reads a line, so [fuel] rounds are enough for an input of fewer than
    [fuel] lines; [None] is fuel run out. *)
Fixpoint airport_loop (fuel : nat) : M (option string) :=
  match fuel with
  | O => mret None
  | S fuel' =>
      airport_input ← input "Enter origin airport IATA code: ";
      if valid_iata airport_input
      then mret (Some airport_input)
      else airport_loop fuel'
  end.

Definition delayed_flights_by_airport : M unit := fun w =>
  (r ← airport_loop (S (length (w_stdin w)));
   match r with
   | Some airport_input =>
       results ← FlightData.get_delayed_flights_by_airport (VStr airport_input);
       print_results results
   | None => mret tt
   end) w.

(** [input()] without a prompt. *)
Definition input_line : M string := fun w =>
  match w_stdin w with
  | [] => (Raise EOFError, w)
  | line :: rest => (Ok line, World (w_db w) (w_open w) (w_log w) rest (w_stdout w))
  end.

(** The [while not valid] loop of [flight_by_id].  [except Exception] takes
    every exception of the model, end of input included, so a round need not
    read a line and no number of rounds is enough for every input; [None] is
    fuel run out. *)
Fixpoint flight_id_loop (fuel : nat) : M (option Z) :=
  match fuel with
  | O => mret None
  | S fuel' =>
      r ← try_except
             (line ← input "Enter flight ID: ";
              id_input ← lift (Py.int (VStr line));
              mret (Some id_input))
             (λ _, true)
             (λ _, _ ← print "Try again..."; mret None);
      match r with
      | Some id_input => mret (Some id_input)
      | None => flight_id_loop fuel'
      end
  end.

Definition flight_by_id (fuel : nat) : M (option unit) :=
  r ← flight_id_loop fuel;
  match r with
  | Some id_input =>
      results ← FlightData.get_flight_by_id (VInt id_input);
      _ ← print_results results;
      mret (Some tt)
  | None => mret None
  end.

(** [datetime.strptime(s, '%d/%m/%Y')], the fields the caller reads. *)
Module Datetime.

Record date : Type := MkDate { year : Z; month : Z; day : Z }.

Definition digit (c : ascii) : Z := Z.of_N (Py.code c) - 48.

Definition is_leap (y : Z) : bool :=
  (y mod 4 =? 0) && (negb (y mod 100 =? 0) || (y mod 400 =? 0)).

Definition days_in_month (y m : Z) : Z :=
  if m =? 2 then (if is_leap y then 29 else 28)
  else if (m =? 4) || (m =? 6) || (m =? 9) || (m =? 11) then 30
  else 31.

(** [%d]: 3[0-1], [1-2]\d, 0[1-9], [1-9] or a space and [1-9], then "/". *)
Definition parse_day (cs : list ascii) : option (Z * list ascii) :=
  match cs with
  | c1 :: c2 :: rest =>
      if Ascii.eqb c2 "/"
      then (if Py.between 49 57 c1 then Some (digit c1, rest) else None)
      else match rest with
           | c3 :: rest' =>
               if Ascii.eqb c3 "/"
               then (if Ascii.eqb c1 "3" && Py.between 48 49 c2
                        || Py.between 49 50 c1 && Py.isdigit_char c2
                        || Ascii.eqb c1 "0" && Py.between 49 57 c2
                     then Some (10 * digit c1 + digit c2, rest')
                     else if Ascii.eqb c1 " " && Py.between 49 57 c2
                          then Some (digit c2, rest')
                          else None)
               else None
           | [] => None
           end
  | _ => None
  end.

(** [%m]: 1[0-2], 0[1-9] or [1-9], then "/". *)
Definition parse_month (cs : list ascii) : option (Z * list ascii) :=
  match cs with
  | c1 :: c2 :: rest =>
      if Ascii.eqb c2 "/"
      then (if Py.between 49 57 c1 then Some (digit c1, rest) else None)
      else match rest with
           | c3 :: rest' =>
               if Ascii.eqb c3 "/"
               then (if Ascii.eqb c1 "1" && Py.between 48 50 c2
                        || Ascii.eqb c1 "0" && Py.between 49 57 c2
                     then Some (10 * digit c1 + digit c2, rest')
                     else None)
               else None
           | [] => None
           end
  | _ => None
  end.

(** [%Y]: four digits, and nothing after them. *)
Definition parse_year (cs : list ascii) : option Z :=
  match cs with
  | [c1; c2; c3; c4] =>
      if forallb Py.isdigit_char [c1; c2; c3; c4]
      then Some (1000 * digit c1 + 100 * digit c2 + 10 * digit c3 + digit c4)
      else None
  | _ => None
  end.

(** [None] is [ValueError]: the text does not match the format, or the
    fields are no date of the calendar (years run from 1 to 9999). *)
Definition strptime (s : string) : option date :=
  '(d, cs) ← parse_day (list_ascii_of_string s);
  '(m, cs) ← parse_month cs;
  y ← parse_year cs;
  if (1 <=? y) && (d <=? days_in_month y m) then Some (MkDate y m d) else None.

End Datetime.

(** The [while not valid] loop of [flights_by_date]; only [ValueError] is
    caught, so every round reads a line or ends the loop. *)
Fixpoint date_loop (fuel : nat) : M (option Datetime.date) :=
  match fuel with
  | O => mret None
  | S fuel' =>
      r ← try_except
             (date_input ← input "Enter date in DD/MM/YYYY format: ";
              date ← lift (match Datetime.strptime date_input with
                           | Some date => Ok date
                           | None => Raise (ValueError date_input)
                           end);
              mret (Some date))
             is_ValueError
             (λ error, _ ← print_error "Try again..." error; mret None);
      match r with
      | Some date => mret (Some date)
      | None => date_loop fuel'
      end
  end.

Definition flights_by_date : M unit := fun w =>
  (r ← date_loop (S (length (w_stdin w)));
   match r with
   | Some date =>
       results ← FlightData.get_flights_by_date
                   (VInt (Datetime.day date)) (VInt (Datetime.month date))
                   (VInt (Datetime.year date));
       print_results results
   | None => mret tt
   end) w.

(** The functions of the dispatch table. *)
Inductive handler : Type :=
| Fn_flight_by_id
| Fn_flights_by_date
| Fn_delayed_flights_by_airline
| Fn_delayed_flights_by_airport
| Fn_quit.

Definition FUNCTIONS : list (Z * (handler * string)) :=
  [ (1, (Fn_flight_by_id, "Show flight by ID"));
    (2, (Fn_flights_by_date, "Show flights by date"));
    (3, (Fn_delayed_flights_by_airline, "Delayed flights by airline"));
    (4, (Fn_delayed_flights_by_airport, "Delayed flights by origin airport"));
    (5, (Fn_quit, "Exit")) ].

(** [FUNCTIONS[choice]], [None] when [choice not in FUNCTIONS]. *)
Fixpoint functions_get (items : list (Z * (handler * string))) (choice : Z)
  : option (handler * string) :=
  match items with
  | [] => None
  | (key, value) :: items' =>
      if key =? choice then Some value else functions_get items' choice
  end.

(** [for key, value in FUNCTIONS.items(): print(f"{key}. {value[1]}")] *)
Fixpoint print_menu (items : list (Z * (handler * string))) : M unit :=
  match items with
  | [] => mret tt
  | (key, value) :: items' =>
      _ ← print (Py.str (VInt key) +:+ ". " +:+ value.2);
      print_menu items'
  end.

(** The input loop of [show_menu_and_get_input]: only [ValueError] is
    passed over, so every round reads a line or ends the loop; [None] is fuel
    run out. *)
Fixpoint menu_loop (fuel : nat) : M (option handler) :=
  match fuel with
  | O => mret None
  | S fuel' =>
      r ← try_except
             (line ← input_line;
              choice ← lift (Py.int (VStr line));
              match functions_get FUNCTIONS choice with
              | Some value => mret (Some value.1)
              | None => mret None
              end)
             is_ValueError
             (λ _, mret None);
      match r with
      | Some f => mret (Some f)
      | None => _ ← print "Try again..."; menu_loop fuel'
      end
  end.

Definition show_menu_and_get_input : M (option handler) := fun w =>
  (_ ← print "Menu:";
   _ ← print_menu FUNCTIONS;
   menu_loop (S (length (w_stdin w)))) w.

(** How a run of [main] ends: the [quit] entry was chosen, an exception left
    [main], or the fuel ran out with the menu loop still going. *)
Inductive ending : Type :=
| Exited
| Crashed (e : exn)
| Running.

(** What a call of a handler, or of the menu, means for the loop of [main]:
    an exception ends the run, fuel run out leaves it running, a normal
    return goes round again ([None]). *)
Definition outcome {A} (r : res (option A) * world) : option ending * world :=
  match r with
  | (Raise e, w) => (Some (Crashed e), w)
  | (Ok None, w) => (Some Running, w)
  | (Ok (Some _), w) => (None, w)
  end.

(** [choice_func(data_manager)]; [quit] ends the process. *)
Definition call_handler (fuel : nat) (choice_func : handler) (w : world)
  : option ending * world :=
  match choice_func with
  | Fn_flight_by_id => outcome (flight_by_id fuel w)
  | Fn_flights_by_date => outcome ((Some <$> flights_by_date) w)
  | Fn_delayed_flights_by_airline => outcome ((Some <$> delayed_flights_by_airline) w)
  | Fn_delayed_flights_by_airport => outcome ((Some <$> delayed_flights_by_airport) w)
  | Fn_quit => (Some Exited, w)
  end.

(** The menu loop of [main], [fuel] rounds of it; a handler gets the fuel
    that is left. *)
Fixpoint main (fuel : nat) (w : world) : ending * world :=
  match fuel with
  | O => (Running, w)
  | S fuel' =>
      match show_menu_and_get_input w with
      | (Raise e, w1) => (Crashed e, w1)
      | (Ok None, w1) => (Running, w1)
      | (Ok (Some choice_func), w1) =>
          match call_handler fuel' choice_func w1 with
          | (Some e, w2) => (e, w2)
          | (None, w2) => main fuel' w2
          end
      end
  end.

(** ** A small store to run the program on *)

Definition sample_flights : table := MkTable
  ["ID"; "YEAR"; "MONTH"; "DAY"; "AIRLINE"; "ORIGIN_AIRPORT";
   "DESTINATION_AIRPORT"; "DEPARTURE_DELAY"]
  [ [VInt 119; VInt 2015; VInt 1; VInt 14; VStr "AS"; VStr "SEA"; VStr "LAX"; VNone];
    [VInt 120; VInt 2015; VInt 1; VInt 14; VStr "AS"; VStr "SEA"; VStr "SFO"; VInt 0];
    [VInt 121; VInt 2015; VInt 1; VInt 15; VStr "DL"; VStr "ATL"; VStr "SEA"; VInt 45] ].

Definition sample_airlines : table := MkTable
  ["ID"; "AIRLINE"]
  [ [VStr "AS"; VStr "Alaska Airlines Inc."];
    [VStr "DL"; VStr "Delta Air Lines Inc."] ].

Definition sample_store : store :=
  [("flights", sample_flights); ("airlines", sample_airlines)].

Definition world_of (st : store) (stdin : list string) : world :=
  World (Some st) 0 [] stdin [].

Definition sample_world : world := world_of sample_store [].

(** A store file that was created empty: it has no tables. *)
Definition empty_world : world := world_of [] [].

Definition sample_record (delay : value) : gmap string value :=
  {[ "ID" := VInt 119; "ORIGIN_AIRPORT" := VStr "SEA";
     "DESTINATION_AIRPORT" := VStr "LAX";
     "AIRLINE" := VStr "Alaska Airlines Inc."; "DELAY" := delay ]}.

(** ** The operations of the gateway, named as the specification names them *)

Inductive operation : Type :=
| GetById (flight_id : value)
| GetByDate (day month year : value)
| GetByAirport (origin_airport : value)
| GetByAirline (airline : value).

(** The method of [FlightData] behind each operation. *)
Definition call (op : operation) : M (list (gmap string value)) :=
  match op with
  | GetById flight_id => FlightData.get_flight_by_id flight_id
  | GetByDate day month year => FlightData.get_flights_by_date day month year
  | GetByAirport origin_airport => FlightData.get_delayed_flights_by_airport origin_airport
  | GetByAirline airline => FlightData.get_delayed_flights_by_airline airline
  end.

(** What the specification says an operation is: [execute] on the
    operation's template with the one parameter map binding its arguments. *)
Definition spec_template (op : operation) : stmt :=
  match op with
  | GetById _ => QUERY_FLIGHT_BY_ID
  | GetByDate _ _ _ => QUERY_FLIGHT_BY_DATE
  | GetByAirport _ => QUERY_FLIGHT_BY_AIRPORT
  | GetByAirline _ => QUERY_FLIGHT_BY_AIRLINE
  end.

Definition spec_params (op : operation) : gmap string value :=
  match op with
  | GetById flight_id => <["id" := flight_id]> ∅
  | GetByDate day month year =>
      <["year" := year]> (<["month" := month]> (<["day" := day]> ∅))
  | GetByAirport origin_airport => <["origin_airport" := origin_airport]> ∅
  | GetByAirline airline => <["airline" := airline]> ∅
  end.

Definition spec_call (op : operation) : M (list (gmap string value)) :=
  FlightData._execute_query (spec_template op) (spec_params op).

Definition is_select (q : stmt) : bool :=
  match q with Select _ => true | _ => false end.

(** ** Vocabulary of the properties *)

(** The delay a stored DEPARTURE_DELAY stands for, in the words of the
    specification: NULL (and the empty text) is no delay, a number is itself,
    a text is the number it spells, if it spells one. *)
Definition stored_delay (d : value) : option Z :=
  match d with
  | VNone => Some 0
  | VInt n => Some n
  | VStr s => if String.eqb s "" then Some 0 else Py.int_of_str s
  end.

Definition header (results : list (gmap string value)) : out :=
  Print ("Got " +:+ pretty (length results) +:+ " results.").

Definition prompts (n : nat) : list out :=
  replicate n (Prompt "Enter origin airport IATA code: ").

(** The world after [n] prompts that left [rest] unread. *)
Definition after_prompts (n : nat) (rest : list string) (w : world) : world :=
  World (w_db w) (w_open w) (w_log w) rest (w_stdout w ++ prompts n).

(** The value of column [c] in row [r] of table [T] (NULL when [T] declares
    no such column). *)
Definition cell (T : table) (r : list value) (c : string) : value :=
  match col_lookup c (tbl_cols T) r with
  | Some (_, v) => v
  | None => VNone
  end.



(** The rows an operation returned ([[]] when it raised). *)
Definition returned (r : res (list (gmap string value)) * world)
  : list (gmap string value) :=
  match r.1 with
  | Ok rs => rs
  | Raise _ => []
  end.

(** Column [key] of every record an operation returned. *)
Definition column (key : string) (r : res (list (gmap string value)) * world)
  : res (list (option value)) :=
  (λ rs : list (gmap string value), (λ d : gmap string value, d !! key) <$> rs) <$> r.1.

(** Whether the projection [p] yields column [c] of table [t]. *)
Definition proj_yields (t c : string) (p : proj) : bool :=
  match p with
  | PStar t' => ident_eqb t t'
  | PCol t' c' | PAs t' c' _ => ident_eqb t t' && ident_eqb c c'
  end.

Definition projects (q : stmt) (t c : string) : bool :=
  match q with
  | Select s => existsb (proj_yields t c) (sel_proj s)
  | _ => false
  end.

Definition catalog : list stmt :=
  [QUERY_FLIGHT_BY_ID; QUERY_FLIGHT_BY_DATE; QUERY_FLIGHT_BY_AIRPORT;
   QUERY_FLIGHT_BY_AIRLINE].

(** The line [print_results] owes a record: every column it reads is there
    and DELAY stands for a number. *)
Definition record_line (result : gmap string value) : option string :=
  id ← result !! "ID";
  origin ← result !! "ORIGIN_AIRPORT";
  dest ← result !! "DESTINATION_AIRPORT";
  airline ← result !! "AIRLINE";
  d ← result !! "DELAY";
  n ← stored_delay d;
  Some (flight_line id origin dest airline
          +:+ (if 0 <? n then delay_suffix n else "")).

(** The DELAY text of a record whose DELAY [int()] refuses. *)
Definition bad_delay (result : gmap string value) : option string :=
  match result !! "DELAY" with
  | Some (VStr s) =>
      if String.eqb s "" then None
      else match Py.int_of_str s with
           | Some _ => None
           | None => Some s
           end
  | _ => None
  end.

(** [m] never leaves a world that is not [P]-related to the one it got. *)
Definition keeps {A} (P : world -> world -> Prop) (m : M A) : Prop :=
  forall w, P w (m w).2.

(** What the engine may be asked by this program: to check a connection
    out, to close one, or to run one of the four templates. *)
Definition catalog_event (ev : event) : Prop :=
  match ev with
  | Execute q _ => q ∈ catalog
  | _ => True
  end.


(** A number below 100 in two digits, a number below 10000 in four. *)
Definition digit_char (k : Z) : ascii := ascii_of_N (Z.to_N (48 + k)).

Definition two_digits (n : Z) : list ascii :=
  [digit_char (n / 10); digit_char (n mod 10)].

Definition four_digits (n : Z) : list ascii :=
  [digit_char (n / 1000); digit_char (n / 100 mod 10);
   digit_char (n / 10 mod 10); digit_char (n mod 10)].

(** A date written DD/MM/YYYY. *)
Definition format_dmy (date : Datetime.date) : string :=
  string_of_list_ascii
    (two_digits (Datetime.day date) ++ "/"%char ::
     two_digits (Datetime.month date) ++ "/"%char ::
     four_digits (Datetime.year date)).

(** A date of the calendar [datetime] knows. *)
Definition valid_date (date : Datetime.date) : Prop :=
  1 <= Datetime.year date <= 9999
  /\ 1 <= Datetime.month date <= 12
  /\ 1 <= Datetime.day date
          <= Datetime.days_in_month (Datetime.year date) (Datetime.month date).

(** What [n] refused rounds of the flight-ID prompt print. *)
Definition id_retries (n : nat) : list out :=
  mjoin (replicate n [Prompt "Enter flight ID: "; Print "Try again..."]).

(** What the refused lines of the date prompt print. *)
Definition date_retries (lines : list string) : list out :=
  lines ≫= λ line, [Prompt "Enter date in DD/MM/YYYY format: ";
                    PrintError "Try again..." (ValueError line)].

(** The entry of the dispatch table a line of input chooses. *)
Definition menu_choice (line : string) : option handler :=
  choice ← Py.int_of_str line;
  fst <$> functions_get FUNCTIONS choice.

Definition menu_lines : list out :=
  [Print "Menu:"; Print "1. Show flight by ID"; Print "2. Show flights by date";
   Print "3. Delayed flights by airline";
   Print "4. Delayed flights by origin airport"; Print "5. Exit"].

(** * Properties *)

(** ** The built-ins, run *)

Example int_of_str_ex1 : Py.int_of_str " 45 " = Some 45.
Proof. reflexivity. Qed.
Example int_of_str_ex2 : Py.int_of_str "-1_000" = Some (-1000).
Proof. reflexivity. Qed.
Example int_of_str_ex3 : Py.int_of_str "4_" = None /\ Py.int_of_str "abc" = None /\ Py.int_of_str "" = None.
Proof. repeat split. Qed.
Example str_ex : Py.str (VInt 45) = "45" /\ Py.str (VInt (-7)) = "-7" /\ Py.str (VInt 0) = "0".
Proof. repeat split. Qed.
Example isalpha_ex : Py.isalpha "SEA" = true /\ Py.isalpha "S3A" = false /\ Py.isalpha "" = false.
Proof. repeat split. Qed.

(** ** The gateway's [_execute_query] *)

Section ExecuteQuery.

Import FlightData.

Lemma foldl_snoc_asdict (rows : list result_row) (acc : list (gmap string value)) :
  foldl (λ records row, records ++ [_asdict row]) acc rows = acc ++ (_asdict <$> rows).
Proof.
  revert acc. induction rows as [|row rows IH]; intros acc; simpl.
  - by rewrite app_nil_r.
  - rewrite IH. by rewrite <- app_assoc.
Qed.

(** With the store open, a call checks a connection out, runs the one
    statement, closes the connection, and hands back the rows as dicts or
    the store's exception. *)
Lemma execute_query_open query params w st :
  w_db w = Some st ->
  _execute_query query params w =
    ((λ rows : list result_row, _asdict <$> rows) <$> (Sql.run query params st).1,
     World (Some (Sql.run query params st).2) (w_open w)
           (w_log w ++ [Connect; Execute query params; Close])
           (w_stdin w) (w_stdout w)).
Proof.
  intros Hdb.
  unfold _execute_query, with_connect, connect, conn_execute, close, log_event,
    mbind, M_bind, mret, M_ret.
  rewrite Hdb. simpl.
  destruct (Sql.run query params st) as [[rows|e] st']; simpl.
  - rewrite foldl_snoc_asdict. simpl. by rewrite <- !app_assoc.
  - by rewrite <- !app_assoc.
Qed.

(** With the store out of reach nothing is checked out and the error of
    [connect] reaches the caller. *)
Lemma execute_query_unreachable query params w :
  w_db w = None ->
  _execute_query query params w =
    (Raise (OperationalError "unable to open database file"), w).
Proof.
  intros Hdb.
  unfold _execute_query, with_connect, connect, mbind, M_bind.
  by rewrite Hdb.
Qed.

Lemma run_select_store s params st : (Sql.run (Select s) params st).2 = st.
Proof. unfold Sql.run. by destruct (bind_params _ _). Qed.

End ExecuteQuery.

Section GatewayClaims.

Import FlightData.

(** C1.  The docstring of [_execute_query] promises that an exception is
    printed and an empty list returned.  The body has no handler: on a
    store without the [flights] table, and on a statement whose placeholder
    has no value, the store's exception leaves [_execute_query] after the
    connection is closed, and nothing is printed. *)
Theorem execute_query_store_error_raises :
  _execute_query QUERY_FLIGHT_BY_ID {[ "id" := VInt 119 ]} empty_world =
    (Raise (OperationalError "no such table: flights"),
     World (Some []) 0
           [Connect; Execute QUERY_FLIGHT_BY_ID {[ "id" := VInt 119 ]}; Close]
           [] [])
  /\ _execute_query QUERY_FLIGHT_BY_ID ∅ sample_world =
    (Raise (StatementError "id"),
     World (Some sample_store) 0
           [Connect; Execute QUERY_FLIGHT_BY_ID ∅; Close] [] []).
Proof. split; vm_compute; reflexivity. Qed.

(** Whatever the store raises is what the caller of [_execute_query] gets. *)
Lemma execute_query_propagates query params w st e :
  w_db w = Some st ->
  (Sql.run query params st).1 = Raise e ->
  (_execute_query query params w).1 = Raise e.
Proof.
  intros Hdb Hrun. rewrite (execute_query_open _ _ _ _ Hdb). simpl.
  by rewrite Hrun.
Qed.

(** C5.  A statement that runs and matches no row gives the empty list, as
    a normal return value. *)
Theorem execute_query_no_match query params w st :
  w_db w = Some st ->
  (Sql.run query params st).1 = Ok [] ->
  (_execute_query query params w).1 = Ok [].
Proof.
  intros Hdb Hrun. rewrite (execute_query_open _ _ _ _ Hdb). simpl.
  by rewrite Hrun.
Qed.

Lemma execute_query_no_match_witness :
  (_execute_query QUERY_FLIGHT_BY_ID {[ "id" := VInt 999 ]} sample_world).1 = Ok [].
Proof.
  apply (execute_query_no_match QUERY_FLIGHT_BY_ID {[ "id" := VInt 999 ]}
           sample_world sample_store); vm_compute; reflexivity.
Defined.

(** C7.  Each convenience method is [_execute_query] on its template with
    the one parameter map binding its arguments, and nothing else. *)
Theorem convenience_is_execute (op : operation) : call op = spec_call op.
Proof. destruct op; reflexivity. Qed.

(** A SELECT leaves the store as it found it, whether it returns rows or
    raises. *)
Lemma execute_select_frame s params w :
  w_db (_execute_query (Select s) params w).2 = w_db w.
Proof.
  destruct (w_db w) as [st|] eqn:Hdb.
  - rewrite (execute_query_open _ _ _ _ Hdb). simpl.
    by rewrite run_select_store.
  - by rewrite (execute_query_unreachable _ _ _ Hdb).
Qed.

Lemma catalog_is_select (op : operation) : is_select (spec_template op) = true.
Proof. by destruct op. Qed.

(** C8.  Every operation of the gateway leaves the store as it found it:
    the statement it issues is one of the four SELECT templates. *)
Theorem gateway_read_only (op : operation) (w : world) :
  w_db (call op w).2 = w_db w.
Proof. destruct op; apply execute_select_frame. Qed.

(** The store of the model is not read-only by construction: a DELETE
    through the same [_execute_query] removes the matching flight. *)
Example delete_changes_store :
  w_db (_execute_query
          (Delete "flights" (CEq (OCol "flights" "ID") (OParam "id")))
          {[ "id" := VInt 121 ]} sample_world).2
  = Some [("flights",
           MkTable (tbl_cols sample_flights) (take 2 (tbl_rows sample_flights)));
          ("airlines", sample_airlines)].
Proof. vm_compute. reflexivity. Qed.

(** C10.  A call of [_execute_query] leaves as many connections checked out
    as it found.  With the store in reach, what it asks of the engine is
    exactly: check a connection out, run the statement, close the
    connection, on the returning and on the raising path alike; with
    the store out of reach nothing is checked out at all. *)
Theorem execute_query_releases_connection query params w :
  w_open (_execute_query query params w).2 = w_open w
  /\ match w_db w with
     | Some _ =>
         w_log (_execute_query query params w).2 =
           w_log w ++ [Connect; Execute query params; Close]
     | None => (_execute_query query params w).2 = w
     end.
Proof.
  destruct (w_db w) as [st|] eqn:Hdb.
  - by rewrite (execute_query_open _ _ _ _ Hdb).
  - by rewrite (execute_query_unreachable _ _ _ Hdb).
Qed.

(** The raising path, run: the connection is closed before the exception
    reaches the caller. *)
Example raising_path_closes :
  let r := _execute_query QUERY_FLIGHT_BY_AIRPORT ∅ sample_world in
  r.1 = Raise (StatementError "origin_airport")
  /\ w_open r.2 = 0%nat
  /\ w_log r.2 = [Connect; Execute QUERY_FLIGHT_BY_AIRPORT ∅; Close].
Proof. vm_compute. repeat split. Qed.

End GatewayClaims.

(** ** [print_results] *)

Ltac unfold_M :=
  unfold print_results, read_columns, try_except, getitem, lift, print,
    print_error, fmap, M_fmap, mbind, M_bind, mret, M_ret.

Lemma append_empty_r (s : string) : s +:+ "" = s.
Proof.
  induction s as [|c s IH]; [reflexivity|].
  change (String c (s +:+ "") = String c s). by rewrite IH.
Qed.

Section PrintResults.

Variables (result : gmap string value) (rest : list (gmap string value)).

Lemma read_columns_ok (origin dest airline d : value) (n : Z) (w : world) :
  result !! "DELAY" = Some d ->
  result !! "ORIGIN_AIRPORT" = Some origin ->
  result !! "DESTINATION_AIRPORT" = Some dest ->
  result !! "AIRLINE" = Some airline ->
  stored_delay d = Some n ->
  read_columns result w = (Ok (n, origin, dest, airline), w).
Proof.
  intros Hd Ho Hde Ha Hn. unfold_M. rewrite Hd.
  destruct d as [|z|s]; simpl in Hn; simplify_eq; simpl.
  - by rewrite Ho, Hde, Ha.
  - destruct (n =? 0) eqn:Hz; simpl.
    + apply Z.eqb_eq in Hz. subst n. by rewrite Ho, Hde, Ha.
    + by rewrite Ho, Hde, Ha.
  - destruct (String.eqb s "") eqn:Hs; simpl.
    + simplify_eq. by rewrite Ho, Hde, Ha.
    + rewrite Hn. by rewrite Ho, Hde, Ha.
Qed.

(** C4.  A record with the columns [print_results] reads, whose DELAY is
    NULL or stands for a number, is printed as
    [<id>. <origin> -> <dest> by <airline>], NULL counting as 0, with
    [, Delay: <n> Minutes] appended exactly when the delay is greater than
    0; the loop then goes on to the next record. *)
Theorem print_results_line (id origin dest airline d : value) (n : Z) (w : world) :
  result !! "ID" = Some id ->
  result !! "ORIGIN_AIRPORT" = Some origin ->
  result !! "DESTINATION_AIRPORT" = Some dest ->
  result !! "AIRLINE" = Some airline ->
  result !! "DELAY" = Some d ->
  stored_delay d = Some n ->
  print_results (result :: rest) w =
    print_rows rest
      (write (Print (flight_line id origin dest airline
                       +:+ (if 0 <? n then delay_suffix n else "")))
             (write (header (result :: rest)) w)).
Proof.
  intros Hid Ho Hde Ha Hd Hn.
  unfold print_results, print at 1. unfold mbind at 1. unfold M_bind at 1.
  cbn [print_rows].
  unfold mbind at 1. unfold M_bind at 1. unfold try_except.
  unfold fmap at 1. unfold M_fmap. unfold mbind at 1. unfold M_bind at 1.
  rewrite (read_columns_ok origin dest airline d n _ Hd Ho Hde Ha Hn).
  cbn [mret M_ret].
  unfold Py.truthy.
  destruct (0 <? n) eqn:Hpos.
  - assert ((n =? 0) = false) as -> by (apply Z.eqb_neq; apply Z.ltb_lt in Hpos; lia).
    cbn [negb andb]. unfold_M. by rewrite Hid.
  - rewrite andb_false_r. unfold_M. rewrite Hid.
    by rewrite append_empty_r.
Qed.

(** C2.  A record without the DELAY key makes [result['DELAY']] raise
    [KeyError].  The handler of [print_results] names [ValueError] and
    [SQLAlchemyError] only, so the exception leaves [print_results]: after
    the header nothing is printed, no error is reported, and the caller
    gets the exception. *)
Theorem print_results_missing_column_raises (w : world) :
  result !! "DELAY" = None ->
  print_results (result :: rest) w =
    (Raise (KeyError "DELAY"), write (header (result :: rest)) w).
Proof.
  intros Hd. unfold print_results, print at 1. unfold mbind at 1. unfold M_bind at 1.
  cbn [print_rows]. unfold_M. by rewrite Hd.
Qed.

(** The failure the handler does catch: a DELAY that is no number is
    reported and the rest of the batch is dropped without raising. *)
Lemma print_results_bad_delay_reported (s : string) (w : world) :
  result !! "DELAY" = Some (VStr s) ->
  s <> "" ->
  Py.int_of_str s = None ->
  print_results (result :: rest) w =
    (Ok tt, write (PrintError "Error showing results: " (ValueError s))
                  (write (header (result :: rest)) w)).
Proof.
  intros Hd Hs Hint. unfold print_results, print at 1.
  unfold mbind at 1. unfold M_bind at 1.
  cbn [print_rows]. unfold_M. rewrite Hd. unfold Py.truthy.
  assert (String.eqb s "" = false) as -> by by apply String.eqb_neq.
  cbn [negb]. unfold Py.int. by rewrite Hint.
Qed.

End PrintResults.

Lemma print_results_line_witness :
  print_results [sample_record (VInt 45)] sample_world =
    (Ok tt,
     World (Some sample_store) 0 [] []
       [Print "Got 1 results.";
        Print "119. SEA -> LAX by Alaska Airlines Inc., Delay: 45 Minutes"]).
Proof.
  rewrite (print_results_line (sample_record (VInt 45)) []
             (VInt 119) (VStr "SEA") (VStr "LAX") (VStr "Alaska Airlines Inc.")
             (VInt 45) 45 sample_world); reflexivity.
Defined.

Example print_results_no_delay :
  w_stdout (print_results [sample_record (VInt 0); sample_record VNone] sample_world).2 =
    [Print "Got 2 results.";
     Print "119. SEA -> LAX by Alaska Airlines Inc.";
     Print "119. SEA -> LAX by Alaska Airlines Inc."].
Proof. vm_compute. reflexivity. Qed.

Lemma print_results_missing_column_raises_witness :
  print_results [delete "DELAY" (sample_record VNone); sample_record (VInt 45)]
      sample_world =
    (Raise (KeyError "DELAY"),
     World (Some sample_store) 0 [] [] [Print "Got 2 results."]).
Proof.
  rewrite (print_results_missing_column_raises
             (delete "DELAY" (sample_record VNone)) [sample_record (VInt 45)]
             sample_world); reflexivity.
Defined.

Example print_results_bad_delay :
  print_results [sample_record (VStr "abc"); sample_record (VInt 45)] sample_world =
    (Ok tt,
     World (Some sample_store) 0 [] []
       [Print "Got 2 results.";
        PrintError "Error showing results: " (ValueError "abc")]).
Proof. vm_compute. reflexivity. Qed.

(** ** The airport prompt *)

Section AirportPrompt.

Abbreviation rejected := (Forall (λ line, valid_iata line = false)).

Lemma valid_iata_spec (s : string) :
  valid_iata s = true <->
  String.length s = 3%nat /\ forallb Py.isalpha_char (list_ascii_of_string s) = true.
Proof.
  unfold valid_iata, Py.isalpha, Py.len, IATA_LENGTH.
  rewrite andb_true_iff, Nat.eqb_eq.
  destruct s as [|c s]; simpl; [intuition congruence | tauto].
Qed.

Lemma airport_loop_accepts pre : forall s rest fuel w,
  w_stdin w = pre ++ s :: rest ->
  rejected pre ->
  valid_iata s = true ->
  (length pre < fuel)%nat ->
  airport_loop fuel w = (Ok (Some s), after_prompts (S (length pre)) rest w).
Proof.
  induction pre as [|line pre IH]; intros s rest fuel w Hin Hrej Hs Hfuel;
    (destruct fuel as [|fuel]; [simpl in Hfuel; lia|]);
    cbn [airport_loop]; unfold mbind, M_bind, input, write; simpl; rewrite Hin; simpl.
  - rewrite Hs. reflexivity.
  - inversion Hrej as [|? ? Hline Hpre]; subst. rewrite Hline.
    erewrite (IH s rest fuel); [|reflexivity|done|done|simpl in Hfuel; lia].
    unfold after_prompts; simpl. by rewrite <- app_assoc.
Qed.

Lemma airport_loop_eof lines : forall fuel w,
  w_stdin w = lines ->
  rejected lines ->
  (length lines < fuel)%nat ->
  airport_loop fuel w = (Raise EOFError, after_prompts (S (length lines)) [] w).
Proof.
  induction lines as [|line lines IH]; intros fuel w Hin Hrej Hfuel;
    (destruct fuel as [|fuel]; [simpl in Hfuel; lia|]);
    cbn [airport_loop]; unfold mbind, M_bind, input, write; simpl; rewrite Hin; simpl.
  - reflexivity.
  - inversion Hrej as [|? ? Hline Hpre]; subst. rewrite Hline.
    erewrite (IH fuel); [|reflexivity|done|simpl in Hfuel; lia].
    unfold after_prompts; simpl. by rewrite <- app_assoc.
Qed.

(** An input either has a first acceptable line or none at all. *)
Lemma first_valid (lines : list string) :
  (exists pre s rest,
      lines = pre ++ s :: rest /\ rejected pre /\ valid_iata s = true)
  \/ rejected lines.
Proof.
  induction lines as [|line lines IH]; [right; constructor|].
  destruct (valid_iata line) eqn:Hline.
  - left. exists [], line, lines. repeat split; [constructor | done].
  - destruct IH as [(pre & s & rest & -> & Hpre & Hs)|Hrej].
    + left. exists (line :: pre), s, rest. repeat split; [by constructor | done].
    + right. by constructor.
Qed.

(** The fuel [delayed_flights_by_airport] gives its loop never runs out. *)
Lemma airport_loop_total (w : world) :
  (airport_loop (S (length (w_stdin w))) w).1 <> Ok None.
Proof.
  destruct (first_valid (w_stdin w)) as [(pre & s & rest & Hin & Hpre & Hs)|Hrej].
  - rewrite (airport_loop_accepts pre s rest _ w Hin Hpre Hs); [done|].
    rewrite Hin, length_app. simpl. lia.
  - rewrite (airport_loop_eof _ _ w eq_refl Hrej); [done | lia].
Qed.

Lemma delayed_flights_by_airport_accepts w pre s rest :
  w_stdin w = pre ++ s :: rest ->
  rejected pre ->
  valid_iata s = true ->
  delayed_flights_by_airport w =
    (results ← FlightData.get_delayed_flights_by_airport (VStr s);
     print_results results) (after_prompts (S (length pre)) rest w).
Proof.
  intros Hin Hpre Hs. unfold delayed_flights_by_airport.
  unfold mbind at 1. unfold M_bind at 1.
  rewrite (airport_loop_accepts pre s rest _ w Hin Hpre Hs); [done|].
  rewrite Hin, length_app. simpl. lia.
Qed.

Lemma delayed_flights_by_airport_eof w :
  rejected (w_stdin w) ->
  delayed_flights_by_airport w =
    (Raise EOFError, after_prompts (S (length (w_stdin w))) [] w).
Proof.
  intros Hrej. unfold delayed_flights_by_airport.
  unfold mbind at 1. unfold M_bind at 1.
  rewrite (airport_loop_eof _ _ w eq_refl Hrej); [done | lia].
Qed.

(** Printing talks to the console only. *)
Lemma print_rows_log (results : list (gmap string value)) : forall w,
  w_log (print_rows results w).2 = w_log w.
Proof.
  induction results as [|result results IH]; intros w; [done|].
  cbn [print_rows]. unfold_M.
  repeat case_match; simplify_eq; simpl; try done; by rewrite IH.
Qed.

Lemma print_results_log results w : w_log (print_results results w).2 = w_log w.
Proof.
  unfold print_results, print. unfold mbind at 1. unfold M_bind at 1.
  by rewrite print_rows_log.
Qed.

End AirportPrompt.

Section AirportClaim.

Import FlightData.

Lemma gateway_call_log (code : value) (w : world) q params :
  Execute q params ∈
    w_log ((results ← get_delayed_flights_by_airport code;
            print_results results) w).2 ->
  Execute q params ∈ w_log w
  \/ (q = QUERY_FLIGHT_BY_AIRPORT /\ params = {[ "origin_airport" := code ]}).
Proof.
  unfold get_delayed_flights_by_airport. unfold mbind at 1. unfold M_bind at 1.
  destruct (w_db w) as [st|] eqn:Hdb.
  - rewrite (execute_query_open _ _ _ _ Hdb).
    destruct (Sql.run _ _ st).1 as [rows|e]; simpl;
      rewrite ?print_results_log; simpl;
      rewrite elem_of_app, !elem_of_cons, elem_of_nil;
      intros [?|[?|[?|[?|[]]]]]; try discriminate; auto;
      simplify_eq; by right.
  - rewrite (execute_query_unreachable _ _ _ Hdb). simpl. auto.
Qed.

(** C6.  The line that reaches the gateway is the first one made of exactly
    three alphabetic characters: a line is accepted if and only if it has
    that shape; every line before the first accepted one costs a new prompt
    and nothing else; and whatever the input, a statement the prompt adds
    to the engine's log is the airport query bound to an accepted line. *)
Theorem airport_code_validated :
  (forall s : string,
      valid_iata s = true <->
      String.length s = 3%nat
      /\ forallb Py.isalpha_char (list_ascii_of_string s) = true)
  /\ (forall (w : world) (pre : list string) (s : string) (rest : list string),
         w_stdin w = pre ++ s :: rest ->
         Forall (λ line, valid_iata line = false) pre ->
         valid_iata s = true ->
         delayed_flights_by_airport w =
           (results ← get_delayed_flights_by_airport (VStr s);
            print_results results) (after_prompts (S (length pre)) rest w))
  /\ (forall (w : world) q params,
         Execute q params ∈ w_log (delayed_flights_by_airport w).2 ->
         Execute q params ∈ w_log w
         \/ exists s : string,
             s ∈ w_stdin w /\ valid_iata s = true
             /\ q = QUERY_FLIGHT_BY_AIRPORT
             /\ params = {[ "origin_airport" := VStr s ]}).
Proof.
  split; [exact valid_iata_spec|]. split; [exact delayed_flights_by_airport_accepts|].
  intros w q params.
  destruct (first_valid (w_stdin w)) as [(pre & s & rest & Hin & Hpre & Hs)|Hrej].
  - rewrite (delayed_flights_by_airport_accepts w pre s rest Hin Hpre Hs).
    intros [?|[-> ->]]%gateway_call_log; [by left|].
    right. exists s. repeat split; [|done].
    rewrite Hin. apply elem_of_app. right. apply elem_of_cons. by left.
  - rewrite (delayed_flights_by_airport_eof w Hrej). simpl. auto.
Qed.

Lemma airport_code_validated_witness :
  valid_iata "SE" = false
  /\ delayed_flights_by_airport (world_of sample_store ["SE"; "S3A"; "SEA"; "JFK"]) =
       (results ← get_delayed_flights_by_airport (VStr "SEA");
        print_results results)
         (after_prompts 3 ["JFK"] (world_of sample_store ["SE"; "S3A"; "SEA"; "JFK"])).
Proof.
  split; [reflexivity|].
  apply (proj1 (proj2 airport_code_validated)
           (world_of sample_store ["SE"; "S3A"; "SEA"; "JFK"])
           ["SE"; "S3A"] "SEA" ["JFK"]);
    [reflexivity | repeat constructor | reflexivity].
Defined.

(** The fourth end-to-end scenario of the specification, run: "SE" and "S3A"
    are asked again and only "SEA" is looked up. *)
Example airport_prompt_run :
  let r := delayed_flights_by_airport (world_of sample_store ["SE"; "S3A"; "SEA"; "JFK"]) in
  r.1 = Ok tt
  /\ w_stdin r.2 = ["JFK"]
  /\ w_log r.2 =
       [Connect;
        Execute QUERY_FLIGHT_BY_AIRPORT {[ "origin_airport" := VStr "SEA" ]};
        Close]
  /\ w_stdout r.2 =
       prompts 3 ++
       [Print "Got 2 results.";
        Print "119. SEA -> LAX by Alaska Airlines Inc.";
        Print "120. SEA -> SFO by Alaska Airlines Inc."].
Proof. vm_compute. repeat split. Qed.

End AirportClaim.

(** ** What the four templates select *)

Section SelectRows.

Variables (s : select) (params : gmap string value).


(** The rows selected are, in order, the candidates that pass. *)
Lemma select_rows_filter {X} (mk : X -> list binding) (keep : X -> bool)
    (P : result_row -> X -> Prop) (xs : list X) : forall rows,
  select_rows s params (mk <$> xs) = Ok rows ->
  (forall x r, x ∈ xs -> select_row s params (mk x) = Ok r ->
               if keep x then exists cols, r = Some cols /\ P cols x else r = None) ->
  Forall2 P rows (List.filter keep xs).
Proof.
  induction xs as [|x xs IH]; intros rows Hrows Hrow.
  - simpl in Hrows. simplify_eq. constructor.
  - cbn [fmap list_fmap select_rows] in Hrows.
    destruct (select_row s params (mk x)) as [r|e] eqn:Hx; [|done].
    destruct (select_rows s params (mk <$> xs)) as [rs|e] eqn:Hxs; [|done].
    cbn in Hrows. simplify_eq.
    assert (Forall2 P rs (List.filter keep xs)) as Hrest.
    { apply IH; [done|]. intros y r' Hy. apply Hrow. by right. }
    specialize (Hrow x r (list_elem_of_here _ _) Hx). cbn [List.filter].
    destruct (keep x).
    + destruct Hrow as (cols & -> & HP). by constructor.
    + by subst r.
Qed.


Lemma run_select_rows st rows :
  (Sql.run (Select s) params st).1 = Ok rows -> exec_select s params st = Ok rows.
Proof. unfold Sql.run. by destruct (bind_params _ _). Qed.

End SelectRows.

Lemma asdict_last (cols : result_row) (k : string) (v : value) :
  FlightData._asdict (cols ++ [(k, v)]) !! k = Some v.
Proof. unfold FlightData._asdict. rewrite foldl_app. simpl. apply lookup_insert_eq. Qed.

Section DelayedQueries.

Import FlightData.

Variables (F A : table) (x : value).






End DelayedQueries.

Section DelayedClaim.

Import FlightData.

Lemma execute_query_rows s params w st rs w' :
  w_db w = Some st ->
  _execute_query (Select s) params w = (Ok rs, w') ->
  exists rows, exec_select s params st = Ok rows /\ rs = _asdict <$> rows.
Proof.
  intros Hdb. rewrite (execute_query_open _ _ _ _ Hdb). intros [= Hrun _].
  destruct (Sql.run (Select s) params st).1 as [rows|e] eqn:Hrows; [|done].
  exists rows. split; [by apply run_select_rows|].
  cbn in Hrun. by simplify_eq.
Qed.


End DelayedClaim.


(** The flights out of SEA and the flights of Alaska Airlines in the sample
    store have delay NULL and 0, and both operations return them. *)
Example delayed_queries_run :
  column "DELAY" (FlightData.get_delayed_flights_by_airport (VStr "SEA") sample_world)
    = Ok [Some VNone; Some (VInt 0)]
  /\ column "DELAY" (FlightData.get_delayed_flights_by_airline
                       (VStr "Alaska Airlines Inc.") sample_world)
    = Ok [Some VNone; Some (VInt 0)].
Proof. split; vm_compute; reflexivity. Qed.

(** ** The columns of the catalog *)

(** The part of the column list every template does project: origin,
    destination and delay of the flight. *)
Lemma catalog_common_columns :
  Forall (λ q, projects q "flights" "ORIGIN_AIRPORT" = true
               /\ projects q "flights" "DESTINATION_AIRPORT" = true
               /\ projects q "flights" "DEPARTURE_DELAY" = true) catalog.
Proof. repeat constructor. Qed.

(** C3.  Two templates fall short of the column list.  The by-date template
    names no column of [airlines] and joins nothing: the AIRLINE field of
    the records of [get_flights_by_date] is the flight's own airline code,
    where [get_flight_by_id] gives the same flight the airline's name.  The
    by-airline template projects no flight identifier: the ID of its records
    is the airline's and there is no FLIGHT_ID. *)
Theorem by_date_airline_not_resolved :
  (λ q, projects q "airlines" "AIRLINE") <$> catalog = [true; false; true; true]
  /\ (λ q, projects q "flights" "ID") <$> catalog = [true; true; true; false]
  /\ column "AIRLINE"
       (FlightData.get_flights_by_date (VInt 14) (VInt 1) (VInt 2015) sample_world)
     = Ok [Some (VStr "AS"); Some (VStr "AS")]
  /\ column "AIRLINE" (FlightData.get_flight_by_id (VInt 119) sample_world)
     = Ok [Some (VStr "Alaska Airlines Inc.")]
  /\ column "ID" (FlightData.get_delayed_flights_by_airline
                    (VStr "Alaska Airlines Inc.") sample_world)
     = Ok [Some (VStr "AS"); Some (VStr "AS")]
  /\ column "FLIGHT_ID" (FlightData.get_delayed_flights_by_airline
                           (VStr "Alaska Airlines Inc.") sample_world)
     = Ok [None; None].
Proof. repeat split; vm_compute; reflexivity. Qed.

(** * Further properties of the two modules *)

(** ** [print_results] on a whole batch *)

Section PrintBatch.

Lemma print_rows_step (result : gmap string value) rest line w :
  record_line result = Some line ->
  print_rows (result :: rest) w = print_rows rest (write (Print line) w).
Proof.
  unfold record_line. intros Hline.
  destruct (result !! "ID") as [id|] eqn:Hid; [|done].
  destruct (result !! "ORIGIN_AIRPORT") as [origin|] eqn:Ho; [|done].
  destruct (result !! "DESTINATION_AIRPORT") as [dest|] eqn:Hde; [|done].
  destruct (result !! "AIRLINE") as [airline|] eqn:Ha; [|done].
  destruct (result !! "DELAY") as [d|] eqn:Hd; [|done].
  cbn in Hline.
  destruct (stored_delay d) as [n|] eqn:Hn; [|done].
  cbn in Hline. simplify_eq.
  cbn [print_rows].
  unfold mbind at 1. unfold M_bind at 1. unfold try_except.
  unfold fmap at 1. unfold M_fmap. unfold mbind at 1. unfold M_bind at 1.
  rewrite (read_columns_ok result origin dest airline d n _ Hd Ho Hde Ha Hn).
  cbn [mret M_ret]. unfold Py.truthy.
  destruct (0 <? n) eqn:Hpos.
  - assert ((n =? 0) = false) as -> by (apply Z.eqb_neq; apply Z.ltb_lt in Hpos; lia).
    cbn [negb andb]. unfold_M. by rewrite Hid.
  - rewrite andb_false_r. unfold_M. rewrite Hid. by rewrite append_empty_r.
Qed.

Lemma print_rows_batch (results : list (gmap string value)) : forall lines rest w,
  Forall2 (λ result line, record_line result = Some line) results lines ->
  print_rows (results ++ rest) w =
    print_rows rest
      (World (w_db w) (w_open w) (w_log w) (w_stdin w)
             (w_stdout w ++ (Print <$> lines))).
Proof.
  induction results as [|result results IH]; intros lines rest w Hall.
  - apply Forall2_nil_inv_l in Hall as ->. destruct w; simpl. by rewrite app_nil_r.
  - apply Forall2_cons_inv_l in Hall as (line & lines' & Hline & Hall & ->).
    cbn [app]. rewrite (print_rows_step _ _ _ _ Hline).
    rewrite (IH lines' rest _ Hall). unfold write; simpl.
    by rewrite <- app_assoc.
Qed.

(** X1.  A batch of records that all have the columns [print_results] reads
    and a DELAY that stands for a number is printed whole: the count, then
    one line per record in the order of the batch, and the call returns. *)
Theorem print_results_batch (results : list (gmap string value)) lines w :
  Forall2 (λ result line, record_line result = Some line) results lines ->
  print_results results w =
    (Ok tt,
     World (w_db w) (w_open w) (w_log w) (w_stdin w)
           (w_stdout w ++ header results :: (Print <$> lines))).
Proof.
  intros Hall. unfold print_results, print. unfold mbind at 1. unfold M_bind at 1.
  match goal with
  | |- print_rows results ?w1 = _ =>
      pose proof (print_rows_batch results lines [] w1 Hall) as Hrows
  end.
  rewrite app_nil_r in Hrows. rewrite Hrows.
  unfold write, header; simpl. by rewrite <- app_assoc.
Qed.

(** X2.  The first record whose DELAY is a text that spells no number ends
    the batch: the count printed is that of the whole batch, the records
    before it are printed, the error is reported once, the records after it
    are not looked at, and the call returns normally. *)
Theorem print_results_stops_at_bad_delay
    (good : list (gmap string value)) lines bad s rest w :
  Forall2 (λ result line, record_line result = Some line) good lines ->
  bad_delay bad = Some s ->
  print_results (good ++ bad :: rest) w =
    (Ok tt,
     World (w_db w) (w_open w) (w_log w) (w_stdin w)
           (w_stdout w ++ header (good ++ bad :: rest) :: (Print <$> lines)
              ++ [PrintError "Error showing results: " (ValueError s)])).
Proof.
  intros Hall Hbad. unfold print_results, print. unfold mbind at 1. unfold M_bind at 1.
  rewrite (print_rows_batch good lines (bad :: rest) _ Hall).
  unfold bad_delay in Hbad.
  destruct (bad !! "DELAY") as [[| |t]|] eqn:Hd; try done.
  destruct (String.eqb t "") eqn:Ht; [done|].
  destruct (Py.int_of_str t) eqn:Hint; [done|]. simplify_eq.
  cbn [print_rows]. unfold_M. rewrite Hd. unfold Py.truthy. rewrite Ht.
  cbn [negb]. unfold Py.int. rewrite Hint. cbn.
  unfold write, header; simpl. by rewrite <- !app_assoc.
Qed.

(** X3.  The identifier [print_results] prints is read from the key ID, not
    from FLIGHT_ID, and outside the [try]: a record with every other column
    in order but no ID makes the call raise [KeyError] after the count. *)
Theorem print_results_needs_ID (result : gmap string value) rest
    (origin dest airline d : value) (n : Z) w :
  result !! "ID" = None ->
  result !! "ORIGIN_AIRPORT" = Some origin ->
  result !! "DESTINATION_AIRPORT" = Some dest ->
  result !! "AIRLINE" = Some airline ->
  result !! "DELAY" = Some d ->
  stored_delay d = Some n ->
  print_results (result :: rest) w =
    (Raise (KeyError "ID"), write (header (result :: rest)) w).
Proof.
  intros Hid Ho Hde Ha Hd Hn.
  unfold print_results, print at 1. unfold mbind at 1. unfold M_bind at 1.
  cbn [print_rows].
  unfold mbind at 1. unfold M_bind at 1. unfold try_except.
  unfold fmap at 1. unfold M_fmap. unfold mbind at 1. unfold M_bind at 1.
  rewrite (read_columns_ok result origin dest airline d n _ Hd Ho Hde Ha Hn).
  cbn [mret M_ret].
  destruct (Py.truthy (VInt n) && (0 <? n)); unfold_M; by rewrite Hid.
Qed.

(** X4.  Whatever the batch and however the call ends, [print_results] only
    adds to the console output: the store, the connections, the engine's log
    and the pending input are as before. *)
Theorem print_results_console_only (results : list (gmap string value)) w :
  exists printed,
    (print_results results w).2 =
      World (w_db w) (w_open w) (w_log w) (w_stdin w) (w_stdout w ++ printed).
Proof.
  assert (forall rs w0, exists printed,
             (print_rows rs w0).2 =
               World (w_db w0) (w_open w0) (w_log w0) (w_stdin w0)
                     (w_stdout w0 ++ printed)) as Hrows.
  { induction rs as [|result rs IH]; intros w0.
    - exists []. destruct w0; simpl. by rewrite app_nil_r.
    - cbn [print_rows]. unfold_M.
      repeat case_match; simplify_eq; simpl;
        first
          [ match goal with
            | |- context [print_rows rs ?w1] =>
                destruct (IH w1) as [p ->]; simpl; rewrite <- ?app_assoc; by eexists
            end
          | match goal with
            | |- exists _, ?w1 = _ =>
                is_var w1; exists []; destruct w1; simpl; by rewrite app_nil_r
            end
          | by eexists [_] ]. }
  unfold print_results, print. unfold mbind at 1. unfold M_bind at 1.
  destruct (Hrows results (write (header results) w)) as [p Hp].
  unfold header in Hp. rewrite Hp. simpl. rewrite <- app_assoc. by eexists.
Qed.

End PrintBatch.

(** ** The flight-ID prompt *)

Section FlightIdPrompt.

Abbreviation no_number := (Forall (λ line, Py.int_of_str line = None)).

Lemma id_retries_S (n : nat) :
  id_retries (S n) =
    [Prompt "Enter flight ID: "; Print "Try again..."] ++ id_retries n.
Proof. reflexivity. Qed.

Lemma flight_id_loop_accepts pre : forall s n rest fuel w,
  w_stdin w = pre ++ s :: rest ->
  no_number pre ->
  Py.int_of_str s = Some n ->
  (length pre < fuel)%nat ->
  flight_id_loop fuel w =
    (Ok (Some n),
     World (w_db w) (w_open w) (w_log w) rest
           (w_stdout w ++ id_retries (length pre) ++ [Prompt "Enter flight ID: "])).
Proof.
  induction pre as [|line pre IH]; intros s n rest fuel w Hin Hpre Hs Hfuel;
    (destruct fuel as [|fuel]; [simpl in Hfuel; lia|]);
    cbn [flight_id_loop]; unfold_M; unfold input, write; simpl; rewrite Hin; simpl.
  - by rewrite Hs.
  - inversion Hpre as [|? ? Hline Hpre']; subst. rewrite Hline. simpl.
    erewrite (IH s n rest fuel); [|reflexivity|done|done|simpl in Hfuel; lia].
    unfold id_retries. simpl. by rewrite <- ?app_assoc.
Qed.

Lemma flight_id_loop_spins (fuel : nat) : forall w,
  no_number (w_stdin w) ->
  flight_id_loop fuel w =
    (Ok None,
     World (w_db w) (w_open w) (w_log w) (drop fuel (w_stdin w))
           (w_stdout w ++ id_retries fuel)).
Proof.
  induction fuel as [|fuel IH]; intros w Hall.
  - destruct w; simpl. by rewrite app_nil_r.
  - cbn [flight_id_loop]. unfold_M. unfold input, write. simpl.
    destruct (w_stdin w) as [|line lines] eqn:Hin; simpl.
    + rewrite IH by (simpl; rewrite ?Hin; constructor). simpl. rewrite ?Hin.
      rewrite ?drop_nil. unfold id_retries. simpl. by rewrite <- ?app_assoc.
    + inversion Hall as [|? ? Hline Hrest]; subst. rewrite Hline. simpl.
      rewrite IH by done.
      unfold id_retries. simpl. by rewrite <- ?app_assoc.
Qed.

(** X5.  [flight_by_id] looks up the first line that [int()] takes for a
    number (white space around it, a sign and underscores between digits
    allowed); every line before it costs a prompt and "Try again...". *)
Theorem flight_by_id_accepts (w : world) pre s n rest fuel :
  w_stdin w = pre ++ s :: rest ->
  Forall (λ line, Py.int_of_str line = None) pre ->
  Py.int_of_str s = Some n ->
  (length pre < fuel)%nat ->
  flight_by_id fuel w =
    (results ← FlightData.get_flight_by_id (VInt n);
     _ ← print_results results;
     mret (Some tt))
      (World (w_db w) (w_open w) (w_log w) rest
             (w_stdout w ++ id_retries (length pre) ++ [Prompt "Enter flight ID: "])).
Proof.
  intros Hin Hpre Hs Hfuel. unfold flight_by_id.
  unfold mbind at 1. unfold M_bind at 1.
  by rewrite (flight_id_loop_accepts pre s n rest fuel w Hin Hpre Hs Hfuel).
Qed.

(** X6.  [except Exception] also takes the [EOFError] of [input]: when no
    pending line is a number, [flight_by_id] never returns and never raises.
    However many rounds it is given it is still asking, each round printing
    the prompt and "Try again...", and the gateway is not called. *)
Theorem flight_by_id_spins_at_end_of_input (w : world) (fuel : nat) :
  Forall (λ line, Py.int_of_str line = None) (w_stdin w) ->
  flight_by_id fuel w =
    (Ok None,
     World (w_db w) (w_open w) (w_log w) (drop fuel (w_stdin w))
           (w_stdout w ++ id_retries fuel)).
Proof.
  intros Hall. unfold flight_by_id. unfold mbind at 1. unfold M_bind at 1.
  by rewrite (flight_id_loop_spins fuel w Hall).
Qed.

End FlightIdPrompt.

(** ** The date prompt *)

Section Strptime.

Import Datetime.

Lemma between_spec lo hi c :
  Py.between lo hi c = true -> (lo <= Py.code c <= hi)%N.
Proof.
  unfold Py.between. rewrite andb_true_iff, !N.leb_le. tauto.
Qed.

Lemma ascii_eqb_code c d : Ascii.eqb c d = true -> Py.code c = Py.code d.
Proof. by intros ->%Ascii.eqb_eq. Qed.

Ltac char_bounds :=
  repeat match goal with
         | H : _ && _ = true |- _ => apply andb_true_iff in H as [? ?]
         | H : _ || _ = true |- _ => apply orb_true_iff in H as [?|?]
         | H : Py.between _ _ _ = true |- _ => apply between_spec in H
         | H : Py.isdigit_char _ = true |- _ => apply between_spec in H
         | H : Ascii.eqb _ _ = true |- _ => apply ascii_eqb_code in H; cbn in H
         end.

Lemma parse_day_bounds cs d rest :
  parse_day cs = Some (d, rest) -> 1 <= d <= 31.
Proof.
  unfold parse_day, digit. intros H.
  repeat case_match; simplify_eq; char_bounds; lia.
Qed.

Lemma parse_month_bounds cs m rest :
  parse_month cs = Some (m, rest) -> 1 <= m <= 12.
Proof.
  unfold parse_month, digit. intros H.
  repeat case_match; simplify_eq; char_bounds; lia.
Qed.

Lemma parse_year_bounds cs y : parse_year cs = Some y -> 0 <= y <= 9999.
Proof.
  unfold parse_year, digit. intros H.
  repeat case_match; simplify_eq.
  cbn [forallb] in *. char_bounds. lia.
Qed.

(** X7.  Whatever text [strptime] accepts is a date of the calendar: the
    year is from 1 to 9999, the month from 1 to 12, and the day exists in
    that month of that year. *)
Theorem strptime_valid (s : string) (date : Datetime.date) :
  strptime s = Some date -> valid_date date.
Proof.
  unfold strptime, valid_date. intros H.
  destruct (parse_day _) as [[d cs]|] eqn:Hd; [|done]. cbn in H.
  destruct (parse_month cs) as [[m cs']|] eqn:Hm; [|done]. cbn in H.
  destruct (parse_year cs') as [y|] eqn:Hy; [|done]. cbn in H.
  destruct ((1 <=? y) && (d <=? days_in_month y m)) eqn:Hok; [|done].
  simplify_eq. cbn.
  apply andb_true_iff in Hok as [Hy1%Z.leb_le Hdim%Z.leb_le].
  apply parse_day_bounds in Hd. apply parse_month_bounds in Hm.
  apply parse_year_bounds in Hy. lia.
Qed.

Lemma digit_char_spec (k : Z) :
  0 <= k <= 9 ->
  digit (digit_char k) = k
  /\ Py.isdigit_char (digit_char k) = true
  /\ Ascii.eqb (digit_char k) "/" = false.
Proof.
  intros Hk.
  assert (k = 0 \/ k = 1 \/ k = 2 \/ k = 3 \/ k = 4 \/ k = 5 \/ k = 6 \/ k = 7
          \/ k = 8 \/ k = 9) as Hcases by lia.
  repeat destruct Hcases as [->|Hcases]; try subst k; by vm_compute.
Qed.

Lemma in_range (lo hi n : Z) :
  lo <= n <= hi -> n ∈ seqZ lo (hi - lo + 1).
Proof. intros. apply elem_of_seqZ. lia. Qed.

Lemma parse_day_two_digits (d : Z) (rest : list ascii) :
  1 <= d <= 31 ->
  parse_day (two_digits d ++ "/"%char :: rest) = Some (d, rest).
Proof.
  intros Hd%in_range. vm_compute seqZ in Hd.
  repeat (apply elem_of_cons in Hd as [->|Hd]; [reflexivity|]).
  by apply elem_of_nil in Hd.
Qed.

Lemma parse_month_two_digits (m : Z) (rest : list ascii) :
  1 <= m <= 12 ->
  parse_month (two_digits m ++ "/"%char :: rest) = Some (m, rest).
Proof.
  intros Hm%in_range. vm_compute seqZ in Hm.
  repeat (apply elem_of_cons in Hm as [->|Hm]; [reflexivity|]).
  by apply elem_of_nil in Hm.
Qed.

Lemma parse_year_four_digits (y : Z) :
  0 <= y <= 9999 -> parse_year (four_digits y) = Some y.
Proof.
  intros Hy. unfold parse_year, four_digits. cbn [forallb].
  destruct (digit_char_spec (y / 1000)) as (-> & -> & _);
    [clear -Hy; Z.div_mod_to_equations; lia|].
  destruct (digit_char_spec (y / 100 mod 10)) as (-> & -> & _);
    [pose proof (Z.mod_pos_bound (y / 100) 10); lia|].
  destruct (digit_char_spec (y / 10 mod 10)) as (-> & -> & _);
    [pose proof (Z.mod_pos_bound (y / 10) 10); lia|].
  destruct (digit_char_spec (y mod 10)) as (-> & -> & _);
    [pose proof (Z.mod_pos_bound y 10); lia|].
  cbn [andb]. f_equal.
  Z.div_mod_to_equations. lia.
Qed.

(** X8.  Every date of the calendar, written DD/MM/YYYY with leading
    zeros, is accepted by the date prompt's [strptime] and read back as the
    same day, month and year. *)
Theorem strptime_format_dmy (date : Datetime.date) :
  valid_date date -> strptime (format_dmy date) = Some date.
Proof.
  destruct date as [y m d]. unfold valid_date, format_dmy, strptime.
  cbn [Datetime.year Datetime.month Datetime.day].
  intros (Hy & Hm & Hd).
  rewrite list_ascii_of_string_of_list_ascii.
  assert (d <= 31) as Hd31.
  { unfold days_in_month in Hd. repeat case_match; lia. }
  rewrite (parse_day_two_digits d) by lia. cbn [mbind option_bind].
  rewrite (parse_month_two_digits m) by lia. cbn [mbind option_bind].
  rewrite (parse_year_four_digits y) by lia. cbn [mbind option_bind].
  assert ((1 <=? y) = true) as -> by (apply Z.leb_le; lia).
  assert ((d <=? days_in_month y m) = true) as -> by (apply Z.leb_le; lia).
  reflexivity.
Qed.

End Strptime.

Section DatePrompt.

Abbreviation no_date := (Forall (λ line, Datetime.strptime line = None)).

Lemma date_loop_accepts pre : forall s date rest fuel w,
  w_stdin w = pre ++ s :: rest ->
  no_date pre ->
  Datetime.strptime s = Some date ->
  (length pre < fuel)%nat ->
  date_loop fuel w =
    (Ok (Some date),
     World (w_db w) (w_open w) (w_log w) rest
           (w_stdout w ++ date_retries pre
              ++ [Prompt "Enter date in DD/MM/YYYY format: "])).
Proof.
  induction pre as [|line pre IH]; intros s date rest fuel w Hin Hpre Hs Hfuel;
    (destruct fuel as [|fuel]; [simpl in Hfuel; lia|]);
    cbn [date_loop]; unfold_M; unfold input, write; simpl; rewrite Hin; simpl.
  - by rewrite Hs.
  - inversion Hpre as [|? ? Hline Hpre']; subst. rewrite Hline. simpl.
    erewrite (IH s date rest fuel); [|reflexivity|done|done|simpl in Hfuel; lia].
    simpl. by rewrite <- !app_assoc.
Qed.

Lemma date_loop_eof lines : forall fuel w,
  w_stdin w = lines ->
  no_date lines ->
  (length lines < fuel)%nat ->
  date_loop fuel w =
    (Raise EOFError,
     World (w_db w) (w_open w) (w_log w) []
           (w_stdout w ++ date_retries lines
              ++ [Prompt "Enter date in DD/MM/YYYY format: "])).
Proof.
  induction lines as [|line lines IH]; intros fuel w Hin Hall Hfuel;
    (destruct fuel as [|fuel]; [simpl in Hfuel; lia|]);
    cbn [date_loop]; unfold_M; unfold input, write; simpl; rewrite Hin; simpl.
  - reflexivity.
  - inversion Hall as [|? ? Hline Hrest]; subst. rewrite Hline. simpl.
    erewrite (IH fuel); [|reflexivity|done|simpl in Hfuel; lia].
    simpl. by rewrite <- !app_assoc.
Qed.

(** X9.  [flights_by_date] looks up the day, month and year of the first
    line that [strptime] reads as a date; every line before it costs a
    prompt and a "Try again..." with the error. *)
Theorem flights_by_date_accepts (w : world) pre s date rest :
  w_stdin w = pre ++ s :: rest ->
  Forall (λ line, Datetime.strptime line = None) pre ->
  Datetime.strptime s = Some date ->
  flights_by_date w =
    (results ← FlightData.get_flights_by_date
                 (VInt (Datetime.day date)) (VInt (Datetime.month date))
                 (VInt (Datetime.year date));
     print_results results)
      (World (w_db w) (w_open w) (w_log w) rest
             (w_stdout w ++ date_retries pre
                ++ [Prompt "Enter date in DD/MM/YYYY format: "])).
Proof.
  intros Hin Hpre Hs. unfold flights_by_date.
  unfold mbind at 1. unfold M_bind at 1.
  rewrite (date_loop_accepts pre s date rest _ w Hin Hpre Hs); [done|].
  rewrite Hin, length_app. simpl. lia.
Qed.

(** X10.  The date prompt catches [ValueError] only: when no pending line
    is a date, [flights_by_date] asks once per line and once more, and the
    [EOFError] of the last [input] leaves it; the gateway is not called. *)
Theorem flights_by_date_end_of_input (w : world) :
  Forall (λ line, Datetime.strptime line = None) (w_stdin w) ->
  flights_by_date w =
    (Raise EOFError,
     World (w_db w) (w_open w) (w_log w) []
           (w_stdout w ++ date_retries (w_stdin w)
              ++ [Prompt "Enter date in DD/MM/YYYY format: "])).
Proof.
  intros Hall. unfold flights_by_date.
  unfold mbind at 1. unfold M_bind at 1.
  rewrite (date_loop_eof _ _ w eq_refl Hall); [done | lia].
Qed.

End DatePrompt.

(** ** The menu *)

Section Menu.

Abbreviation no_choice := (Forall (λ line, menu_choice line = None)).

Lemma menu_round (line : string) (lines : list string) (w : world) :
  w_stdin w = line :: lines ->
  try_except
    (line ← input_line;
     choice ← lift (Py.int (VStr line));
     match functions_get FUNCTIONS choice with
     | Some value => mret (Some value.1)
     | None => mret None
     end) is_ValueError (λ _, mret None) w =
    (Ok (menu_choice line),
     World (w_db w) (w_open w) (w_log w) lines (w_stdout w)).
Proof.
  intros Hin. unfold menu_choice. unfold_M. unfold input_line, Py.int.
  rewrite Hin.
  destruct (Py.int_of_str line) as [n|]; cbn -[functions_get]; [|done].
  by destruct (functions_get FUNCTIONS n).
Qed.

Lemma menu_loop_accepts pre : forall s f rest fuel w,
  w_stdin w = pre ++ s :: rest ->
  no_choice pre ->
  menu_choice s = Some f ->
  (length pre < fuel)%nat ->
  menu_loop fuel w =
    (Ok (Some f),
     World (w_db w) (w_open w) (w_log w) rest
           (w_stdout w ++ replicate (length pre) (Print "Try again..."))).
Proof.
  induction pre as [|line pre IH]; intros s f rest fuel w Hin Hpre Hs Hfuel;
    (destruct fuel as [|fuel]; [simpl in Hfuel; lia|]);
    cbn [menu_loop]; unfold mbind at 1; unfold M_bind at 1;
    rewrite (menu_round _ _ w Hin).
  - rewrite Hs. cbn. by rewrite app_nil_r.
  - inversion Hpre as [|? ? Hline Hpre']; subst. rewrite Hline.
    unfold_M. unfold write. simpl.
    erewrite (IH s f rest fuel); [|reflexivity|done|done|simpl in Hfuel; lia].
    simpl. by rewrite <- app_assoc.
Qed.

Lemma menu_loop_eof lines : forall fuel w,
  w_stdin w = lines ->
  no_choice lines ->
  (length lines < fuel)%nat ->
  menu_loop fuel w =
    (Raise EOFError,
     World (w_db w) (w_open w) (w_log w) []
           (w_stdout w ++ replicate (length lines) (Print "Try again..."))).
Proof.
  induction lines as [|line lines IH]; intros fuel w Hin Hall Hfuel;
    (destruct fuel as [|fuel]; [simpl in Hfuel; lia|]);
    cbn [menu_loop]; unfold mbind at 1; unfold M_bind at 1.
  - unfold_M. unfold input_line. rewrite Hin. cbn.
    destruct w; simpl in *. subst. by rewrite app_nil_r.
  - rewrite (menu_round _ _ w Hin).
    inversion Hall as [|? ? Hline Hrest]; subst. rewrite Hline.
    unfold_M. unfold write. simpl.
    erewrite (IH fuel); [|reflexivity|done|simpl in Hfuel; lia].
    simpl. by rewrite <- app_assoc.
Qed.

Lemma functions_get_spec (n : Z) :
  is_Some (functions_get FUNCTIONS n) <-> 1 <= n <= 5.
Proof.
  unfold FUNCTIONS. cbn [functions_get].
  destruct (Z.eqb_spec 1 n); [split; [lia | by eexists]|].
  destruct (Z.eqb_spec 2 n); [split; [lia | by eexists]|].
  destruct (Z.eqb_spec 3 n); [split; [lia | by eexists]|].
  destruct (Z.eqb_spec 4 n); [split; [lia | by eexists]|].
  destruct (Z.eqb_spec 5 n); [split; [lia | by eexists]|].
  split; [intros [? [=]] | lia].
Qed.

Lemma print_menu_lines (w : world) :
  (_ ← print "Menu:"; print_menu FUNCTIONS) w =
    (Ok tt,
     World (w_db w) (w_open w) (w_log w) (w_stdin w) (w_stdout w ++ menu_lines)).
Proof.
  unfold FUNCTIONS. cbn [print_menu]. unfold_M. unfold write. cbn.
  rewrite <- !app_assoc. reflexivity.
Qed.

(** X11.  The menu accepts a line exactly when [int()] reads it as one of
    the numbers 1 to 5.  [show_menu_and_get_input] prints the six menu lines
    once and returns the entry chosen by the first accepted line; every line
    before it costs one "Try again...". *)
Theorem show_menu_accepts :
  (forall line : string,
      is_Some (menu_choice line) <->
      exists n, Py.int_of_str line = Some n /\ 1 <= n <= 5)
  /\ (forall (w : world) pre s f rest,
         w_stdin w = pre ++ s :: rest ->
         Forall (λ line, menu_choice line = None) pre ->
         menu_choice s = Some f ->
         show_menu_and_get_input w =
           (Ok (Some f),
            World (w_db w) (w_open w) (w_log w) rest
                  (w_stdout w ++ menu_lines
                     ++ replicate (length pre) (Print "Try again...")))).
Proof.
  split.
  - intros line. unfold menu_choice.
    destruct (Py.int_of_str line) as [n|]; cbn -[functions_get].
    + rewrite fmap_is_Some, functions_get_spec.
      split; [by exists n | by intros (? & [= <-] & ?)].
    + split; [intros [? [=]] | by intros (? & ? & ?)].
  - intros w pre s f rest Hin Hpre Hs. unfold show_menu_and_get_input.
    pose proof (print_menu_lines w) as Hmenu. unfold mbind, M_bind in Hmenu |- *.
    destruct (print "Menu:" w) as [[[]|e] w1]; [|done].
    destruct (print_menu FUNCTIONS w1) as [[[]|e] w2]; [|done].
    simplify_eq.
    erewrite (menu_loop_accepts pre s f rest); [|exact Hin|done|done|].
    + simpl. by rewrite <- app_assoc.
    + rewrite Hin, length_app. simpl. lia.
Qed.

(** X12.  With no acceptable line pending, the menu asks once per line and
    the [EOFError] of the next [input()] leaves [show_menu_and_get_input]:
    only [ValueError] is passed over. *)
Theorem show_menu_end_of_input (w : world) :
  Forall (λ line, menu_choice line = None) (w_stdin w) ->
  show_menu_and_get_input w =
    (Raise EOFError,
     World (w_db w) (w_open w) (w_log w) []
           (w_stdout w ++ menu_lines
              ++ replicate (length (w_stdin w)) (Print "Try again..."))).
Proof.
  intros Hall. unfold show_menu_and_get_input.
  pose proof (print_menu_lines w) as Hmenu. unfold mbind, M_bind in Hmenu |- *.
  destruct (print "Menu:" w) as [[[]|e] w1]; [|done].
  destruct (print_menu FUNCTIONS w1) as [[[]|e] w2]; [|done].
  simplify_eq.
  erewrite (menu_loop_eof (w_stdin w)); [|reflexivity|done|lia].
  simpl. by rewrite <- app_assoc.
Qed.

End Menu.

(** ** What the whole program keeps *)

Create HintDb keeps.

Section Keeps.

Variable P : world -> world -> Prop.
Hypothesis P_refl : forall w, P w w.
Hypothesis P_trans : forall w1 w2 w3, P w1 w2 -> P w2 w3 -> P w1 w3.
Hypothesis P_console : forall w stdin stdout,
  P w (World (w_db w) (w_open w) (w_log w) stdin stdout).
Hypothesis P_call : forall op, keeps P (call op).

Lemma keeps_mret {A} (a : A) : keeps P (mret a).
Proof. intros w. apply P_refl. Qed.

Lemma keeps_lift {A} (r : res A) : keeps P (lift r).
Proof. intros w. apply P_refl. Qed.

Lemma keeps_bind {A B} (m : M A) (k : A -> M B) :
  keeps P m -> (forall a, keeps P (k a)) -> keeps P (m ≫= k).
Proof.
  intros Hm Hk w. unfold mbind, M_bind. specialize (Hm w).
  destruct (m w) as [[a|e] w1]; [|done].
  eapply P_trans; [exact Hm | apply Hk].
Qed.

Lemma keeps_fmap {A B} (f : A -> B) (m : M A) : keeps P m -> keeps P (f <$> m).
Proof. intros Hm. apply keeps_bind; [done | intros a; apply keeps_mret]. Qed.

Lemma keeps_try_except {A} (body : M A) catches (handler : exn -> M A) :
  keeps P body -> (forall e, keeps P (handler e)) ->
  keeps P (try_except body catches handler).
Proof.
  intros Hb Hh w. unfold try_except. specialize (Hb w).
  destruct (body w) as [[a|e] w1]; [done|].
  destruct (catches e); [|done].
  eapply P_trans; [exact Hb | apply Hh].
Qed.

Lemma keeps_print line : keeps P (print line).
Proof. intros w. apply P_console. Qed.

Lemma keeps_print_error prefix e : keeps P (print_error prefix e).
Proof. intros w. apply P_console. Qed.

Lemma keeps_input prompt : keeps P (input prompt).
Proof.
  intros w. unfold input, write. simpl.
  destruct (w_stdin w); simpl; apply P_console.
Qed.

Lemma keeps_input_line : keeps P input_line.
Proof.
  intros w. unfold input_line. destruct (w_stdin w); simpl; [apply P_refl|].
  apply P_console.
Qed.

Lemma keeps_getitem result key : keeps P (getitem result key).
Proof. apply keeps_lift. Qed.

Local Hint Resolve keeps_mret keeps_lift keeps_fmap keeps_try_except
  keeps_print keeps_print_error keeps_input keeps_input_line keeps_getitem : keeps.

Ltac keeps_step :=
  repeat first
    [ apply keeps_bind; [|intros ?]
    | apply keeps_try_except; [|intros ?]
    | apply keeps_fmap
    | solve [auto with keeps]
    | match goal with
      | |- keeps P (if ?b then _ else _) => destruct b
      | |- keeps P (match ?x with _ => _ end) => destruct x
      end ].

Lemma keeps_read_columns result : keeps P (read_columns result).
Proof. unfold read_columns. keeps_step. Qed.

Lemma keeps_print_rows results : keeps P (print_rows results).
Proof.
  induction results as [|result results IH]; [apply keeps_mret|].
  cbn [print_rows].
  apply keeps_bind.
  - apply keeps_try_except; [apply keeps_fmap, keeps_read_columns|].
    intros e. keeps_step.
  - intros [[[[delay origin] dest] airline]|]; [|apply keeps_mret].
    apply keeps_bind; [|intros _; exact IH]. keeps_step.
Qed.

Lemma keeps_print_results results : keeps P (print_results results).
Proof.
  unfold print_results.
  apply keeps_bind; [apply keeps_print | intros _; apply keeps_print_rows].
Qed.

Lemma keeps_airport_loop fuel : keeps P (airport_loop fuel).
Proof.
  induction fuel as [|fuel IH]; [apply keeps_mret|].
  cbn [airport_loop]. apply keeps_bind; [apply keeps_input|].
  intros line. destruct (valid_iata line); [apply keeps_mret | exact IH].
Qed.

Lemma keeps_flight_id_loop fuel : keeps P (flight_id_loop fuel).
Proof.
  induction fuel as [|fuel IH]; [apply keeps_mret|].
  cbn [flight_id_loop]. apply keeps_bind; [keeps_step|].
  intros [n|]; [apply keeps_mret | exact IH].
Qed.

Lemma keeps_date_loop fuel : keeps P (date_loop fuel).
Proof.
  induction fuel as [|fuel IH]; [apply keeps_mret|].
  cbn [date_loop]. apply keeps_bind; [keeps_step|].
  intros [date|]; [apply keeps_mret | exact IH].
Qed.

Lemma keeps_menu_loop fuel : keeps P (menu_loop fuel).
Proof.
  induction fuel as [|fuel IH]; [apply keeps_mret|].
  cbn [menu_loop]. apply keeps_bind; [keeps_step|].
  intros [f|]; [apply keeps_mret|].
  apply keeps_bind; [apply keeps_print | intros _; exact IH].
Qed.

Lemma keeps_print_menu items : keeps P (print_menu items).
Proof.
  induction items as [|[key value] items IH]; [apply keeps_mret|].
  cbn [print_menu]. apply keeps_bind; [apply keeps_print | intros _; exact IH].
Qed.

Lemma keeps_show_menu : keeps P show_menu_and_get_input.
Proof.
  intros w. unfold show_menu_and_get_input.
  apply (keeps_bind (print "Menu:")); [apply keeps_print|]. intros _.
  apply keeps_bind; [apply keeps_print_menu | intros _; apply keeps_menu_loop].
Qed.

Lemma keeps_flight_by_id fuel : keeps P (flight_by_id fuel).
Proof.
  unfold flight_by_id. apply keeps_bind; [apply keeps_flight_id_loop|].
  intros [n|]; [|apply keeps_mret].
  apply keeps_bind; [apply (P_call (GetById _))|]. intros results.
  apply keeps_bind; [apply keeps_print_results | intros _; apply keeps_mret].
Qed.

Lemma keeps_flights_by_date : keeps P flights_by_date.
Proof.
  intros w. unfold flights_by_date.
  apply (keeps_bind (date_loop _)); [apply keeps_date_loop|].
  intros [date|]; [|apply keeps_mret].
  apply keeps_bind; [apply (P_call (GetByDate _ _ _))|]. intros results.
  apply keeps_print_results.
Qed.

Lemma keeps_delayed_flights_by_airline : keeps P delayed_flights_by_airline.
Proof.
  unfold delayed_flights_by_airline. apply keeps_bind; [apply keeps_input|].
  intros line. apply keeps_bind; [apply (P_call (GetByAirline _))|].
  intros results. apply keeps_print_results.
Qed.

Lemma keeps_delayed_flights_by_airport : keeps P delayed_flights_by_airport.
Proof.
  intros w. unfold delayed_flights_by_airport.
  apply (keeps_bind (airport_loop _)); [apply keeps_airport_loop|].
  intros [line|]; [|apply keeps_mret].
  apply keeps_bind; [apply (P_call (GetByAirport _))|]. intros results.
  apply keeps_print_results.
Qed.

Lemma keeps_outcome {A} (m : M (option A)) w : keeps P m -> P w (outcome (m w)).2.
Proof.
  intros Hm. specialize (Hm w). unfold outcome.
  by destruct (m w) as [[[a|]|e] w1].
Qed.

Lemma keeps_call_handler fuel f w : P w (call_handler fuel f w).2.
Proof.
  destruct f; cbn [call_handler].
  - apply keeps_outcome, keeps_flight_by_id.
  - apply (keeps_outcome (Some <$> flights_by_date)), keeps_fmap, keeps_flights_by_date.
  - apply (keeps_outcome (Some <$> delayed_flights_by_airline)), keeps_fmap,
      keeps_delayed_flights_by_airline.
  - apply (keeps_outcome (Some <$> delayed_flights_by_airport)), keeps_fmap,
      keeps_delayed_flights_by_airport.
  - apply P_refl.
Qed.

(** Whatever relation between worlds is kept by the console and by the four
    gateway operations is kept by a whole run of [main], however it ends. *)
Lemma keeps_main fuel : forall w, P w (main fuel w).2.
Proof.
  induction fuel as [|fuel IH]; intros w; [apply P_refl|].
  cbn [main]. pose proof (keeps_show_menu w) as Hmenu.
  destruct (show_menu_and_get_input w) as [[[f|]|e] w1]; try done.
  pose proof (keeps_call_handler fuel f w1) as Hcall.
  destruct (call_handler fuel f w1) as [[e|] w2]; simpl in *.
  - eapply P_trans; [exact Hmenu | exact Hcall].
  - eapply P_trans; [exact Hmenu|]. eapply P_trans; [exact Hcall | apply IH].
Qed.

End Keeps.

Section WholeProgram.

Import FlightData.

Lemma call_log (op : operation) (w : world) :
  w_log (call op w).2 = w_log w
  \/ w_log (call op w).2 =
       w_log w ++ [Connect; Execute (spec_template op) (spec_params op); Close].
Proof.
  destruct (w_db w) as [st|] eqn:Hdb.
  - right. destruct op; cbn [call];
      unfold get_flight_by_id, get_flights_by_date, get_delayed_flights_by_airport,
        get_delayed_flights_by_airline;
      by rewrite (execute_query_open _ _ _ _ Hdb).
  - left. destruct op; cbn [call];
      unfold get_flight_by_id, get_flights_by_date, get_delayed_flights_by_airport,
        get_delayed_flights_by_airline;
      by rewrite (execute_query_unreachable _ _ _ Hdb).
Qed.

Lemma call_open (op : operation) (w : world) : w_open (call op w).2 = w_open w.
Proof.
  destruct (w_db w) as [st|] eqn:Hdb; destruct op; cbn [call];
    unfold get_flight_by_id, get_flights_by_date, get_delayed_flights_by_airport,
      get_delayed_flights_by_airline;
    by rewrite ?(execute_query_open _ _ _ _ Hdb),
               ?(execute_query_unreachable _ _ _ Hdb).
Qed.

Lemma call_console (op : operation) (w : world) :
  w_stdin (call op w).2 = w_stdin w /\ w_stdout (call op w).2 = w_stdout w.
Proof.
  destruct (w_db w) as [st|] eqn:Hdb; destruct op; cbn [call];
    unfold get_flight_by_id, get_flights_by_date, get_delayed_flights_by_airport,
      get_delayed_flights_by_airline;
    by rewrite ?(execute_query_open _ _ _ _ Hdb),
               ?(execute_query_unreachable _ _ _ Hdb).
Qed.

(** X13.  A whole run of [main], with any input and however it ends, leaves
    the store as it found it. *)
Theorem main_read_only (fuel : nat) (w : world) :
  w_db (main fuel w).2 = w_db w.
Proof.
  apply (keeps_main (λ w1 w2, w_db w2 = w_db w1)); try done.
  - intros w1 w2 w3 H12 H23. congruence.
  - intros op w1. destruct op; apply execute_select_frame.
Qed.

(** X14.  A whole run of [main] ends with as many connections checked out
    as it started with: every query closes the one it opened, also when the
    run ends in an exception. *)
Theorem main_no_connection_left (fuel : nat) (w : world) :
  w_open (main fuel w).2 = w_open w.
Proof.
  apply (keeps_main (λ w1 w2, w_open w2 = w_open w1)); try done.
  - intros w1 w2 w3 H12 H23. congruence.
  - intros op w1. apply call_open.
Qed.

(** X15.  Whatever the user types, the only statements a run of [main] has
    the engine execute are the four templates of the catalog. *)
Theorem main_only_catalog_statements (fuel : nat) (w : world) :
  exists events,
    w_log (main fuel w).2 = w_log w ++ events /\ Forall catalog_event events.
Proof.
  apply (keeps_main
           (λ w1 w2, exists events,
                w_log w2 = w_log w1 ++ events /\ Forall catalog_event events)).
  - intros w1. exists []. by rewrite app_nil_r.
  - intros w1 w2 w3 (l1 & H1 & Hl1) (l2 & H2 & Hl2). exists (l1 ++ l2).
    rewrite H2, H1, app_assoc. split; [done | by apply Forall_app].
  - intros w1 stdin stdout. exists []. simpl. by rewrite app_nil_r.
  - intros op w1. destruct (call_log op w1) as [Hlog|Hlog]; rewrite Hlog.
    + exists []. by rewrite app_nil_r.
    + eexists. split; [done|].
      apply Forall_cons. split; [exact I|].
      apply Forall_cons. split; [|by repeat constructor].
      unfold catalog_event, catalog. rewrite !elem_of_cons.
      destruct op; cbn [spec_template]; auto 6.
Qed.

(** X16.  The gateway is silent: none of its four operations prints or
    reads, whether it returns rows or raises. *)
Theorem gateway_silent (op : operation) (w : world) :
  w_stdin (call op w).2 = w_stdin w /\ w_stdout (call op w).2 = w_stdout w.
Proof. apply call_console. Qed.

End WholeProgram.

(** ** The rows of the by-id and by-date queries *)

Section GatewayRows.

Import FlightData.

Lemma col_lookup_name c cols r k v :
  col_lookup c cols r = Some (k, v) -> ident_eqb c k = true.
Proof.
  revert r. induction cols as [|k' cols IH]; intros r; [done|].
  cbn [col_lookup]. destruct (ident_eqb c k') eqn:Hk; [|apply IH].
  by intros [= <- <-].
Qed.


Lemma resolve_only (F : table) (c : string) (f : list value) :
  resolve [("flights", (tbl_cols F, f))] "flights" c = col_lookup c (tbl_cols F) f.
Proof. reflexivity. Qed.

Lemma exec_select_single s params st F rows :
  sel_join s = None ->
  find_table (sel_from s) st = Some F ->
  exec_select s params st = Ok rows ->
  select_rows s params ((λ f, [(sel_from s, (tbl_cols F, f))]) <$> tbl_rows F) = Ok rows.
Proof.
  intros Hj HF. unfold exec_select, source, candidates. rewrite Hj, HF.
  unfold mbind, res_bind.
  by destruct (select_row s params _).
Qed.

Lemma asdict_last_but_one (cols : result_row) k v k' v' :
  k <> k' -> _asdict (cols ++ [(k, v); (k', v')]) !! k = Some v.
Proof.
  intros Hk. unfold _asdict. rewrite foldl_app. simpl.
  rewrite lookup_insert_ne by done. apply lookup_insert_eq.
Qed.

Ltac lookups :=
  unfold mbind, res_bind;
  repeat match goal with
         | |- context [col_lookup ?c ?cols ?r] =>
             let H := fresh "Hcol" in
             destruct (col_lookup c cols r) as [[? ?]|] eqn:H; [|done]
         end.

Lemma date_row (F : table) (day month year : value) (f : list value) r :
  select_row
    {| sel_proj := [PStar "flights"; PAs "flights" "ID" "FLIGHT_ID";
                    PCol "flights" "ORIGIN_AIRPORT";
                    PCol "flights" "DESTINATION_AIRPORT";
                    PAs "flights" "DEPARTURE_DELAY" "DELAY"];
       sel_from := "flights";
       sel_join := None;
       sel_where := CAnd (CAnd (CEq (OCol "flights" "DAY") (OParam "day"))
                               (CEq (OCol "flights" "MONTH") (OParam "month")))
                         (CEq (OCol "flights" "YEAR") (OParam "year")) |}
    {[ "day" := day; "month" := month; "year" := year ]}
    [("flights", (tbl_cols F, f))] = Ok r ->
  if sql_eq (cell F f "DAY") day && sql_eq (cell F f "MONTH") month
     && sql_eq (cell F f "YEAR") year
  then exists cols, r = Some cols
                    /\ _asdict cols !! "FLIGHT_ID" = Some (cell F f "ID")
                    /\ _asdict cols !! "DELAY" = Some (cell F f "DEPARTURE_DELAY")
  else r = None.
Proof.
  unfold select_row, cell.
  cbn [sel_join sel_where sel_proj eval_cond eval_operand project eval_proj].
  rewrite !resolve_only.
  replace (find_binding "flights" [("flights", (tbl_cols F, f))])
    with (Some (tbl_cols F, f)) by reflexivity.
  replace (({[ "day" := day; "month" := month; "year" := year ]}
             : gmap string value) !! "day") with (Some day) by reflexivity.
  replace (({[ "day" := day; "month" := month; "year" := year ]}
             : gmap string value) !! "month") with (Some month) by reflexivity.
  replace (({[ "day" := day; "month" := month; "year" := year ]}
             : gmap string value) !! "year") with (Some year) by reflexivity.
  lookups.
  intros [= <-]. cbn [andb].
  match goal with |- context [if ?b then Some _ else _] => destruct b end; [|done].
  eexists. split; [done|].
  apply col_lookup_name in Hcol3, Hcol4.
  match goal with
  | |- _asdict (?l ++ [?a; ?b; ?c; ?d]) !! _ = _ /\ _ =>
      change (l ++ [a; b; c; d]) with (l ++ ([a; b; c] ++ [d]))
  end.
  split; [|rewrite app_assoc; apply asdict_last].
  unfold _asdict. rewrite foldl_app. simpl.
  rewrite lookup_insert_ne by done.
  rewrite lookup_insert_ne by (intros ->; by vm_compute in Hcol4).
  rewrite lookup_insert_ne by (intros ->; by vm_compute in Hcol3).
  apply lookup_insert_eq.
Qed.


(** X17.  On a store where the query runs, [get_flights_by_date] returns
    one record per flight of that day, month and year, in the order of the
    flights table and no other record; each holds the flight's ID as
    FLIGHT_ID and its DEPARTURE_DELAY as DELAY. *)
Theorem flights_by_date_rows
    (w w' : world) (st : store) (F : table) (day month year : value)
    (rs : list (gmap string value)) :
  w_db w = Some st ->
  find_table "flights" st = Some F ->
  get_flights_by_date day month year w = (Ok rs, w') ->
  Forall2 (λ r f, r !! "FLIGHT_ID" = Some (cell F f "ID")
                  /\ r !! "DELAY" = Some (cell F f "DEPARTURE_DELAY"))
    rs
    (List.filter
       (λ f, sql_eq (cell F f "DAY") day && sql_eq (cell F f "MONTH") month
             && sql_eq (cell F f "YEAR") year)
       (tbl_rows F)).
Proof.
  intros Hdb HF Hcall.
  unfold get_flights_by_date, QUERY_FLIGHT_BY_DATE in Hcall.
  apply (execute_query_rows _ _ _ _ _ _ Hdb) in Hcall as (rows & Hexec & ->).
  eapply exec_select_single in Hexec; [|reflexivity|exact HF].
  apply Forall2_fmap_l.
  eapply select_rows_filter; [exact Hexec|].
  intros f r _ Hrow. by apply date_row in Hrow.
Qed.


End GatewayRows.

(** ** The exceptions the gateway lets out *)

Section GatewayErrors.

Import FlightData.

Variable params : gmap string value.

Abbreviation operational e := (exists msg, e = OperationalError msg).
Abbreviation bound := (Forall (λ p, is_Some (params !! p))).








End GatewayErrors.

Section GatewayErrorsClaim.

Import FlightData.


End GatewayErrorsClaim.

(** ** The further properties, run on the sample store *)

Lemma print_results_batch_witness :
  print_results [sample_record (VInt 45); sample_record VNone] sample_world =
    (Ok tt,
     World (Some sample_store) 0 [] []
       [Print "Got 2 results.";
        Print "119. SEA -> LAX by Alaska Airlines Inc., Delay: 45 Minutes";
        Print "119. SEA -> LAX by Alaska Airlines Inc."]).
Proof.
  rewrite (print_results_batch
             [sample_record (VInt 45); sample_record VNone]
             ["119. SEA -> LAX by Alaska Airlines Inc., Delay: 45 Minutes";
              "119. SEA -> LAX by Alaska Airlines Inc."]
             sample_world); [reflexivity|].
  repeat constructor.
Defined.

Lemma print_results_stops_at_bad_delay_witness :
  print_results
    [sample_record (VInt 45); sample_record (VStr "late"); sample_record VNone]
    sample_world =
    (Ok tt,
     World (Some sample_store) 0 [] []
       [Print "Got 3 results.";
        Print "119. SEA -> LAX by Alaska Airlines Inc., Delay: 45 Minutes";
        PrintError "Error showing results: " (ValueError "late")]).
Proof.
  etransitivity.
  - apply (print_results_stops_at_bad_delay
             [sample_record (VInt 45)]
             ["119. SEA -> LAX by Alaska Airlines Inc., Delay: 45 Minutes"]
             (sample_record (VStr "late")) "late" [sample_record VNone]
             sample_world); [repeat constructor | reflexivity].
  - reflexivity.
Defined.

Lemma print_results_needs_ID_witness :
  print_results
    [<["FLIGHT_ID" := VInt 119]> (delete "ID" (sample_record VNone))] sample_world =
    (Raise (KeyError "ID"),
     World (Some sample_store) 0 [] [] [Print "Got 1 results."]).
Proof.
  rewrite (print_results_needs_ID
             (<["FLIGHT_ID" := VInt 119]> (delete "ID" (sample_record VNone))) []
             (VStr "SEA") (VStr "LAX") (VStr "Alaska Airlines Inc.") VNone 0
             sample_world); reflexivity.
Defined.

Lemma flight_by_id_accepts_witness :
  flight_by_id 5 (world_of sample_store ["abc"; ""; " 119 "; "7"]) =
    (results ← FlightData.get_flight_by_id (VInt 119);
     _ ← print_results results;
     mret (Some tt))
      (World (Some sample_store) 0 [] ["7"]
             (id_retries 2 ++ [Prompt "Enter flight ID: "])).
Proof.
  rewrite (flight_by_id_accepts (world_of sample_store ["abc"; ""; " 119 "; "7"])
             ["abc"; ""] " 119 " 119 ["7"] 5);
    [reflexivity | reflexivity | repeat constructor | reflexivity | simpl; lia].
Defined.

Lemma flight_by_id_spins_at_end_of_input_witness :
  flight_by_id 4 (world_of sample_store ["abc"]) =
    (Ok None, World (Some sample_store) 0 [] [] (id_retries 4)).
Proof.
  rewrite (flight_by_id_spins_at_end_of_input (world_of sample_store ["abc"]) 4);
    [reflexivity | repeat constructor].
Defined.

Lemma strptime_valid_witness :
  valid_date (Datetime.MkDate 2016 2 29).
Proof.
  apply (strptime_valid "29/2/2016" (Datetime.MkDate 2016 2 29)). reflexivity.
Defined.

Lemma strptime_format_dmy_witness :
  format_dmy (Datetime.MkDate 2015 1 14) = "14/01/2015"
  /\ Datetime.strptime (format_dmy (Datetime.MkDate 2015 1 14))
     = Some (Datetime.MkDate 2015 1 14).
Proof.
  split; [reflexivity|].
  apply (strptime_format_dmy (Datetime.MkDate 2015 1 14)).
  unfold valid_date. cbn. lia.
Defined.

Lemma flights_by_date_accepts_witness :
  flights_by_date (world_of sample_store ["31/02/2015"; "14.01.2015"; "14/01/2015"]) =
    (results ← FlightData.get_flights_by_date (VInt 14) (VInt 1) (VInt 2015);
     print_results results)
      (World (Some sample_store) 0 [] []
             (date_retries ["31/02/2015"; "14.01.2015"]
                ++ [Prompt "Enter date in DD/MM/YYYY format: "])).
Proof.
  rewrite (flights_by_date_accepts
             (world_of sample_store ["31/02/2015"; "14.01.2015"; "14/01/2015"])
             ["31/02/2015"; "14.01.2015"] "14/01/2015"
             (Datetime.MkDate 2015 1 14) []);
    [reflexivity | reflexivity | repeat constructor | reflexivity].
Defined.

Lemma flights_by_date_end_of_input_witness :
  flights_by_date (world_of sample_store ["31/02/2015"]) =
    (Raise EOFError,
     World (Some sample_store) 0 [] []
           (date_retries ["31/02/2015"]
              ++ [Prompt "Enter date in DD/MM/YYYY format: "])).
Proof.
  rewrite (flights_by_date_end_of_input (world_of sample_store ["31/02/2015"]));
    [reflexivity | repeat constructor].
Defined.

Lemma show_menu_accepts_witness :
  show_menu_and_get_input (world_of sample_store ["0"; "six"; " 4 "; "5"]) =
    (Ok (Some Fn_delayed_flights_by_airport),
     World (Some sample_store) 0 [] ["5"]
           (menu_lines ++ replicate 2 (Print "Try again..."))).
Proof.
  rewrite (proj2 show_menu_accepts
             (world_of sample_store ["0"; "six"; " 4 "; "5"])
             ["0"; "six"] " 4 " Fn_delayed_flights_by_airport ["5"]);
    [reflexivity | reflexivity | repeat constructor | reflexivity].
Defined.

Lemma show_menu_end_of_input_witness :
  show_menu_and_get_input (world_of sample_store ["0"]) =
    (Raise EOFError,
     World (Some sample_store) 0 [] []
           (menu_lines ++ replicate 1 (Print "Try again..."))).
Proof.
  rewrite (show_menu_end_of_input (world_of sample_store ["0"]));
    [reflexivity | repeat constructor].
Defined.

Lemma flights_by_date_rows_witness :
  Forall2 (λ r f, r !! "FLIGHT_ID" = Some (cell sample_flights f "ID")
                  /\ r !! "DELAY" = Some (cell sample_flights f "DEPARTURE_DELAY"))
    (returned (FlightData.get_flights_by_date (VInt 14) (VInt 1) (VInt 2015)
                 sample_world))
    (List.filter
       (λ f, sql_eq (cell sample_flights f "DAY") (VInt 14)
             && sql_eq (cell sample_flights f "MONTH") (VInt 1)
             && sql_eq (cell sample_flights f "YEAR") (VInt 2015))
       (tbl_rows sample_flights)).
Proof.
  apply (flights_by_date_rows
           sample_world
           (FlightData.get_flights_by_date (VInt 14) (VInt 1) (VInt 2015)
              sample_world).2
           sample_store sample_flights (VInt 14) (VInt 1) (VInt 2015)
           (returned (FlightData.get_flights_by_date (VInt 14) (VInt 1) (VInt 2015)
                        sample_world))
           eq_refl eq_refl).
  vm_compute. reflexivity.
Defined.


